(** * AI Expense Tracker: retry wrapper, taxonomy, schema validation,
      vector store service and intent dispatch

    Shallow embedding of
      - [withRetry] and [processUserInput] (the retry-aware pipeline),
      - [parseCategoryData] and [expenseSchema] (models/Expense.js),
      - [VectorStoreService] (services/vectorStore.js),
      - one turn of the earlier [main] loop.

    Conventions.
      - JavaScript strings are [string]s of bytes.  Only the ASCII range of
        [trim], [toLowerCase], [toUpperCase] and of the regular-expression
        classes [\d], [\s] and [.] is modelled.
      - An [async] function is a function of the world that returns a
        completion (normal value or thrown error) and the next world; [await]
        is sequencing.
      - Thrown values are [Error] objects carrying a [message]. *)

From Stdlib Require Import ZArith Lia Ascii String.
From stdpp Require Import base option list gmap strings pretty.

Local Open Scope Z_scope.

(** ** JavaScript strings *)

Definition LF : ascii := "010"%char.
Definition CR : ascii := "013"%char.

(** [String.prototype.includes]. *)
Fixpoint includes (needle hay : string) : bool :=
  String.prefix needle hay ||
  match hay with
  | EmptyString => false
  | String _ rest => includes needle rest
  end.

(** [String.prototype.startsWith]. *)
Definition startsWith (p s : string) : bool := String.prefix p s.

Definition is_empty (s : string) : bool :=
  match s with EmptyString => true | String _ _ => false end.

(** White space in the ASCII range: TAB, LF, VT, FF, CR and SPACE. *)
Definition is_white_space (c : ascii) : bool := Ascii.is_space c.

Fixpoint trimStart (s : string) : string :=
  match s with
  | EmptyString => EmptyString
  | String c rest => if is_white_space c then trimStart rest else s
  end.

Fixpoint trimEnd (s : string) : string :=
  match s with
  | EmptyString => EmptyString
  | String c rest =>
      let r := trimEnd rest in
      if is_white_space c && is_empty r then EmptyString else String c r
  end.

(** [String.prototype.trim]. *)
Definition trim (s : string) : string := trimEnd (trimStart s).

Definition lower_char (c : ascii) : ascii :=
  let n := nat_of_ascii c in
  if (Nat.leb 65 n && Nat.leb n 90)%bool then ascii_of_nat (n + 32) else c.

Definition upper_char (c : ascii) : ascii :=
  let n := nat_of_ascii c in
  if (Nat.leb 97 n && Nat.leb n 122)%bool then ascii_of_nat (n - 32) else c.

Fixpoint map_chars (f : ascii -> ascii) (s : string) : string :=
  match s with
  | EmptyString => EmptyString
  | String c rest => String (f c) (map_chars f rest)
  end.

Definition toLowerCase : string -> string := map_chars lower_char.
Definition toUpperCase : string -> string := map_chars upper_char.

(** [s.split('\n')]: the pieces between line feeds; never the empty list. *)
Fixpoint split_lines (s : string) : list string :=
  match s with
  | EmptyString => [EmptyString]
  | String c rest =>
      if Ascii.eqb c LF then EmptyString :: split_lines rest
      else match split_lines rest with
           | l :: ls => String c l :: ls
           | [] => [String c EmptyString]
           end
  end.

(** [s.replace(c, '')] for a one-character pattern: only the first
    occurrence is removed. *)
Fixpoint remove_first (c : ascii) (s : string) : string :=
  match s with
  | EmptyString => EmptyString
  | String d rest => if Ascii.eqb d c then rest else String d (remove_first c rest)
  end.

(** [arr.join(sep)]. *)
Fixpoint join (sep : string) (l : list string) : string :=
  match l with
  | [] => EmptyString
  | [x] => x
  | x :: rest => x +:+ sep +:+ join sep rest
  end.

Fixpoint takeWhile (p : ascii -> bool) (s : string) : string :=
  match s with
  | EmptyString => EmptyString
  | String c rest => if p c then String c (takeWhile p rest) else EmptyString
  end.

Fixpoint dropWhile (p : ascii -> bool) (s : string) : string :=
  match s with
  | EmptyString => EmptyString
  | String c rest => if p c then dropWhile p rest else s
  end.

(** ** Completions and asynchronous computations *)

Record Error := mkError { message : string }.

Inductive Completion (A : Type) : Type :=
| Normal (value : A)
| Throw (error : Error).
Arguments Normal {A} value.
Arguments Throw {A} error.

(** ** Values held by documents *)

Inductive JsValue :=
| JsUndefined
| JsNull
| JsBool (b : bool)
| JsNumber (n : Z)
| JsString (s : string)
| JsArray (items : list string).

(** Truthiness, as tested by [!], [&&] and [||]. *)
Definition truthy (v : JsValue) : bool :=
  match v with
  | JsUndefined | JsNull => false
  | JsBool b => b
  | JsNumber n => negb (n =? 0)
  | JsString s => negb (is_empty s)
  | JsArray _ => true
  end.

(** A langchain [Document]; [metadata] is [None] when it is null or undefined. *)
Record Document := mkDocument {
  pageContent : string;
  metadata : option (gmap string JsValue)
}.

(** [doc.metadata?.initialization] *)
Definition metadata_initialization (doc : Document) : JsValue :=
  match metadata doc with
  | None => JsUndefined
  | Some m => default JsUndefined (m !! "initialization")
  end.

(** A document of the [Expense] model.  A field is [None] when it is
    undefined; [createdAt] is a time in milliseconds. *)
Record Expense := mkExpense {
  _id : string;
  amount : option string;
  category : option string;
  subCategory : list string;
  response : option string;
  createdAt : Z
}.

(** What [JSON.parse(analysis.text)] yields, read through the field accesses
    of [processUserInput] and the casts of the schema ([String], [[String]]). *)
Record ExpenseData := mkExpenseData {
  data_amount : option string;
  data_category : option string;
  data_sub_category : option (list string);
  data_response : option string
}.

(** What [JSON.parse(intentResult.text)] yields in the earlier main loop,
    read at [intent] and at [(confidence * 100).toFixed(1)]. *)
Record IntentData := mkIntentData {
  data_intent : option string;
  data_confidence : string
}.

(** The four LLM chains of the pipeline. *)
Inductive Chain := intentChain | expenseChain | summaryChain | retrievalChain.

(** ** External collaborators

    The language model, the clock, the document database, the file system and
    the HNSWLib index library, acting on the state [Env] of the outside world.
    A [Handle] is the in-memory index object; the service holds its only
    reference, so the object is passed by value. *)
Class Collaborators := {
  Env : Type;
  Handle : Type;
  (* setTimeout: [ms] milliseconds pass *)
  elapse : Z -> Env -> Env;
  (* chain.call(params), read at [.text] *)
  chain_call : Chain -> list (string * string) -> Env -> Completion string * Env;
  JSON_parse : string -> Completion ExpenseData;
  JSON_parse_intent : string -> Completion IntentData;
  (* mongoose: a fresh ObjectId, the clock, the insert sent to the database *)
  new_ObjectId : Env -> string * Env;
  Date_now : Env -> Z;
  insertOne : Expense -> Env -> Completion unit * Env;
  toISOString : Z -> string;
  toLocaleDateString : Z -> string;
  formatCurrency : option string -> string;
  (* existsSync(VECTOR_INDEX_PATH) *)
  existsSync_index : Env -> bool;
  HNSWLib_load : Env -> Completion Handle * Env;
  HNSWLib_fromDocuments : list Document -> Env -> Completion Handle * Env;
  HNSWLib_save : Handle -> Env -> Completion unit * Env;
  HNSWLib_addDocuments : Handle -> list Document -> Env -> Completion Handle * Env;
  HNSWLib_similaritySearch :
    Handle -> string -> nat -> Env -> Completion (list Document) * Env
}.

(** Observable actions, in the order in which they happen.  A call into
    the index library is recorded when it is made, whatever its outcome. *)
Inductive Event :=
| EvAttempt (attempt : nat)
| EvSleep (ms : Z)
| EvLoad
| EvFromDocuments (docs : list Document)
| EvSave
| EvAddDocuments (docs : list Document)
| EvSearch (query : string) (k : nat)
| EvLog (line : string)
| EvError (line : string).

Section Program.
Context `{Collaborators}.

(** The process and its surroundings: the outside world, the trace of
    actions so far, the [expenses] collection and [this.vectorStore]. *)
Record World := mkWorld {
  ext : Env;
  trace : list Event;
  collection : list Expense;
  vectorStore : option Handle
}.

Definition Async (A : Type) : Type := World -> Completion A * World.

Definition ret {A} (a : A) : Async A := fun w => (Normal a, w).

Definition throw {A} (e : Error) : Async A := fun w => (Throw e, w).

Definition bind {A B} (m : Async A) (k : A -> Async B) : Async B :=
  fun w =>
    match m w with
    | (Normal a, w1) => k a w1
    | (Throw e, w1) => (Throw e, w1)
    end.

(** [try { body } catch (error) { handler }] *)
Definition try_catch {A} (body : Async A) (handler : Error -> Async A) : Async A :=
  fun w =>
    match body w with
    | (Normal a, w1) => (Normal a, w1)
    | (Throw e, w1) => handler e w1
    end.

Definition emit (ev : Event) : Async unit :=
  fun w => (Normal tt, mkWorld (ext w) (trace w ++ [ev]) (collection w) (vectorStore w)).

Definition set_ext (e : Env) (w : World) : World :=
  mkWorld e (trace w) (collection w) (vectorStore w).

(** A call into the outside world. *)
Definition external {A} (f : Env -> Completion A * Env) : Async A :=
  fun w => let '(r, e) := f (ext w) in (r, set_ext e w).

Definition set_vectorStore (h : Handle) : Async unit :=
  fun w => (Normal tt, mkWorld (ext w) (trace w) (collection w) (Some h)).

Definition get_vectorStore : Async (option Handle) :=
  fun w => (Normal (vectorStore w), w).

End Program.

Notation "'let!' x ':=' m 'in' k" := (bind m (fun x => k))
  (at level 10, x name, m at level 100, k at level 200, only parsing).
Notation "'do!' m 'in' k" := (bind m (fun _ => k))
  (at level 10, m at level 100, k at level 200, only parsing).

(** ** The retry wrapper *)

Section Retry.
Context `{Collaborators}.

(** [const sleep = ms => new Promise(resolve => setTimeout(resolve, ms))] *)
Definition sleep (ms : Z) : Async unit :=
  do! emit (EvSleep ms) in
  external (fun e => (Normal tt, elapse ms e)).

(** [error.message.includes('rate limit')] *)
Definition signals_rate_limit (error : Error) : bool :=
  includes "rate limit" (message error).

(** [Math.min(1000 * Math.pow(2, attempt), 60000)].  Over the integers: the
    double-precision product is exact until it overflows to [Infinity], and
    [Math.min] then still yields 60000. *)
Definition backoff_delay (attempt : nat) : Z :=
  Z.min (1000 * 2 ^ Z.of_nat attempt) 60000.

(** The line printed before a retry; [delay / 1000] is a whole number. *)
Definition retry_notice (delay : Z) : string :=
  "⏳ Rate limit hit. Retrying in " +:+ pretty (delay / 1000) +:+ " seconds...".

(** The [for] loop of [withRetry], entered at [attempt] with [remaining]
    iterations to go ([remaining = maxRetries + 1 - attempt], so the guard
    [attempt <= maxRetries] holds exactly when [remaining] is not 0).
    Leaving the loop returns [undefined], here [None]; [Some v] is the value
    [v] that the operation resolved to, which may itself be [undefined]. *)
Fixpoint withRetry_loop {A} (operation : Env -> Completion A * Env)
    (maxRetries remaining attempt : nat) : Async (option A) :=
  match remaining with
  | O => ret None
  | S remaining' =>
      try_catch
        (do! emit (EvAttempt attempt) in
         let! v := external operation in
         ret (Some v))
        (fun error =>
           if signals_rate_limit error && Nat.ltb attempt maxRetries then
             let delay := backoff_delay attempt in
             do! emit (EvLog (retry_notice delay)) in
             do! sleep delay in
             withRetry_loop operation maxRetries remaining' (S attempt)
           else throw error)
  end.

(** [async function withRetry(operation, maxRetries = 3)] *)
Definition withRetry {A} (operation : Env -> Completion A * Env)
    (maxRetries : option nat) : Async (option A) :=
  let maxRetries := default 3%nat maxRetries in
  withRetry_loop operation maxRetries maxRetries 1.

End Retry.

(** ** The category taxonomy (models/Expense.js) *)

Definition is_digit (c : ascii) : bool :=
  let n := nat_of_ascii c in (Nat.leb 48 n && Nat.leb n 57)%bool.

(** The characters that [.] does not match. *)
Definition is_line_terminator (c : ascii) : bool :=
  (Ascii.eqb c LF || Ascii.eqb c CR)%bool.

(** [(.+)]: the longest run of characters of a line, at least one. *)
Definition capture_rest (s : string) : option string :=
  let r := takeWhile (fun c => negb (is_line_terminator c)) s in
  if is_empty r then None else Some r.

(** [\s*(.+)], greedy: white space is consumed as far as it goes and given
    back one character at a time until the capture succeeds. *)
Fixpoint spaces_then_capture (s : string) : option string :=
  match s with
  | EmptyString => capture_rest s
  | String c rest =>
      if is_white_space c then
        match spaces_then_capture rest with
        | Some m => Some m
        | None => capture_rest s
        end
      else capture_rest s
  end.

(** [line.match(/^\d+\.\s+(.+)/)], read at index 1.  The digits are followed
    by a dot, so the greedy [\d+] never has to give a digit back. *)
Definition categoryMatch (line : string) : option string :=
  if is_empty (takeWhile is_digit line) then None
  else match dropWhile is_digit line with
       | String "." (String c rest) =>
           if is_white_space c then spaces_then_capture rest else None
       | _ => None
       end.

(** The body of the [forEach] callback of [parseCategoryData], on the pair of
    [categories] and [currentCategory].  [categories[currentCategory].push]
    throws a TypeError when the key is missing.  The map holds the own keys
    of the object [categories]; a category named [__proto__], which an
    object does not keep as an own key, is outside this model. *)
Definition parse_line (st : gmap string (list string) * option string)
    (line : string) : Completion (gmap string (list string) * option string) :=
  let '(categories, currentCategory) := st in
  if (is_empty (trim line) || includes "Expense Categories:" line)%bool then Normal st
  else
    match categoryMatch line with
    | Some m =>
        let currentCategory := trim m in
        Normal (<[currentCategory := []]> categories, Some currentCategory)
    | None =>
        match currentCategory with
        | Some cur =>
            if (negb (is_empty cur) && startsWith "-" (trim line))%bool then
              let subcategory := trim (remove_first "-" line) in
              match categories !! cur with
              | Some subs => Normal (<[cur := subs ++ [subcategory]]> categories, currentCategory)
              | None =>
                  Throw (mkError "Cannot read properties of undefined (reading 'push')")
              end
            else Normal st
        | None => Normal st
        end
    end.

Fixpoint parse_lines (st : gmap string (list string) * option string)
    (lines : list string) : Completion (gmap string (list string) * option string) :=
  match lines with
  | [] => Normal st
  | line :: rest =>
      match parse_line st line with
      | Normal st' => parse_lines st' rest
      | Throw e => Throw e
      end
  end.

(** [function parseCategoryData(data)] *)
Definition parseCategoryData (data : string) : Completion (gmap string (list string)) :=
  match parse_lines (∅, None) (split_lines data) with
  | Normal (categories, _) => Normal categories
  | Throw e => Throw e
  end.

(** Module initialisation: [fs.readFileSync(catDataPath, 'utf8')], which
    throws when the file is missing ([None]), then [parseCategoryData]. *)
Definition load_categoryData (file : option string) : Completion (gmap string (list string)) :=
  match file with
  | None => Throw (mkError "ENOENT: no such file or directory, open 'cat_data.txt'")
  | Some catData => parseCategoryData catData
  end.

(** [Object.keys(categoryData)] as a set. *)
Definition validCategories (categoryData : gmap string (list string)) : gset string :=
  dom categoryData.

(** ** The Expense schema (models/Expense.js)

    Mongoose reports at most one validator error for each path.  Its
    [required] check rejects an undefined value and an empty string; on an
    array path it only asks for an array, and the array of a [[String]] path
    is never undefined.  An [enum] option given the empty array installs no
    validator.  A validator that throws fails, and the message of what it
    threw becomes the reason of the error. *)

Inductive ValidatorKind := KindRequired | KindEnum | KindUserDefined.

Record ValidatorError := mkValidatorError {
  path : string;
  kind : ValidatorKind;
  reason : string
}.

Definition required_error (p : string) : ValidatorError :=
  mkValidatorError p KindRequired ("Path `" +:+ p +:+ "` is required.").

(** The [required] check of a [String] path. *)
Definition checkRequired (v : option string) : bool :=
  match v with
  | Some s => negb (is_empty s)
  | None => false
  end.

(** The property key that a value used as [obj[value]] denotes. *)
Definition property_key (v : option string) : string := default "undefined" v.

(** [subCategory.validate.validator], called with [this] bound to the
    document. *)
Definition subCategory_validator (categoryData : gmap string (list string))
    (this : Expense) (subcats : list string) : bool :=
  let validSubcategories := default [] (categoryData !! property_key (category this)) in
  forallb (fun subcat => bool_decide (subcat ∈ validSubcategories)) subcats.

Definition validate_amount (doc : Expense) : list ValidatorError :=
  if checkRequired (amount doc) then [] else [required_error "amount"].

(** [enum: validCategories]: the validator is installed when the array of
    keys is not empty. *)
Definition enum_installed (categoryData : gmap string (list string)) : bool :=
  match elements (validCategories categoryData) with
  | [] => false
  | _ :: _ => true
  end.

(** [required: true, enum: validCategories] *)
Definition validate_category (categoryData : gmap string (list string))
    (doc : Expense) : list ValidatorError :=
  match category doc with
  | Some c =>
      if is_empty c then [required_error "category"]
      else if (negb (enum_installed categoryData) ||
               bool_decide (c ∈ validCategories categoryData))%bool then []
      else [mkValidatorError "category" KindEnum
              ("`" +:+ c +:+ "` is not a valid enum value for path `category`.")]
  | None => [required_error "category"]
  end.

(** The names that every plain object inherits from [Object.prototype]. *)
Definition inherited_properties : list string :=
  ["constructor"; "__defineGetter__"; "__defineSetter__"; "hasOwnProperty";
   "__lookupGetter__"; "__lookupSetter__"; "isPrototypeOf"; "propertyIsEnumerable";
   "toString"; "valueOf"; "__proto__"; "toLocaleString"].

(** When [this.category] names an inherited property and no category,
    [categoryData[this.category]] is truthy and is no array: the first call
    of [validSubcategories.includes] throws a TypeError.  In
    [subCategory_validator] that counts as [false]. *)
Definition validator_throws (categoryData : gmap string (list string))
    (this : Expense) (subcats : list string) : bool :=
  match categoryData !! property_key (category this), subcats with
  | None, _ :: _ => bool_decide (property_key (category this) ∈ inherited_properties)
  | _, _ => false
  end.

Definition validate_subCategory (categoryData : gmap string (list string))
    (doc : Expense) : list ValidatorError :=
  if subCategory_validator categoryData doc (subCategory doc) then []
  else [mkValidatorError "subCategory" KindUserDefined
          (if validator_throws categoryData doc (subCategory doc)
           then "validSubcategories.includes is not a function"
           else "Invalid subcategory for the selected category")].

Definition validate_response (doc : Expense) : list ValidatorError :=
  if checkRequired (response doc) then [] else [required_error "response"].

(** [doc.validate()]: the validator errors of all paths, in schema order. *)
Definition validate (categoryData : gmap string (list string)) (doc : Expense)
    : list ValidatorError :=
  validate_amount doc ++ validate_category categoryData doc ++
  validate_subCategory categoryData doc ++ validate_response doc.

Definition ValidationError (errors : list ValidatorError) : Error :=
  mkError ("Expense validation failed: " +:+
           join ", " (map (fun e => path e +:+ ": " +:+ reason e) errors)).

Definition has_error_at (p : string) (errors : list ValidatorError) : bool :=
  existsb (fun e => String.eqb (path e) p) errors.

Section Model.
Context `{Collaborators}.

(** [new Expense({ amount, category, subCategory, response })]: the driver
    assigns [_id], and [createdAt] defaults to [Date.now]. *)
Definition new_Expense (amount category : option string)
    (subCategory : list string) (response : option string) : Async Expense :=
  let! id := external (fun e => let '(i, e') := new_ObjectId e in (Normal i, e')) in
  fun w =>
    (Normal (mkExpense id amount category subCategory response (Date_now (ext w))), w).

(** [expense.save()]: validation, then the insert; the document joins the
    collection once the database has acknowledged it. *)
Definition save (categoryData : gmap string (list string)) (doc : Expense)
    : Async unit :=
  match validate categoryData doc with
  | [] =>
      do! external (insertOne doc) in
      fun w =>
        (Normal tt, mkWorld (ext w) (trace w) (collection w ++ [doc]) (vectorStore w))
  | errors => throw (ValidationError errors)
  end.

End Model.

(** ** The vector store service (services/vectorStore.js) *)

Definition dummyDoc : Document :=
  mkDocument "Initialization document" (Some {[ "initialization" := JsBool true ]}).

(** A value interpolated into a template literal. *)
Definition interpolate (v : option string) : string := default "undefined" v.

Definition js_value (v : option string) : JsValue :=
  match v with
  | Some s => JsString s
  | None => JsUndefined
  end.

Definition new_line : string := String LF EmptyString.

Section VectorStoreService.
Context `{Collaborators}.

Definition exists_index : Async bool :=
  fun w => (Normal (existsSync_index (ext w)), w).

(** [async init()] *)
Definition init : Async unit :=
  try_catch
    (let! found := exists_index in
     if found then
       do! emit EvLoad in
       let! store := external HNSWLib_load in
       do! set_vectorStore store in
       emit (EvLog "Loaded existing vector store")
     else
       do! emit (EvFromDocuments [dummyDoc]) in
       let! store := external (HNSWLib_fromDocuments [dummyDoc]) in
       do! set_vectorStore store in
       do! emit EvSave in
       do! external (HNSWLib_save store) in
       emit (EvLog "Created new vector store"))
    (fun error =>
       do! emit (EvError ("Error initializing vector store: " +:+ message error)) in
       throw error).

(** [if (!this.vectorStore) { await this.init(); }] *)
Definition init_if_needed : Async unit :=
  let! store := get_vectorStore in
  match store with
  | None => init
  | Some _ => ret tt
  end.

(** [async addExpense(expense)] *)
Definition addExpense (expense : Expense) : Async bool :=
  let metadata : gmap string JsValue :=
    {[ "id" := JsString (_id expense);
       "amount" := js_value (amount expense);
       "category" := js_value (category expense);
       "subCategory" := JsArray (subCategory expense);
       "date" := JsString (toISOString (createdAt expense)) ]} in
  match category expense with
  | None =>
      throw (mkError "Cannot read properties of undefined (reading 'toUpperCase')")
  | Some cat =>
      let textContent :=
        "[" +:+ toUpperCase cat +:+ "] Expense of â‚¹" +:+ interpolate (amount expense) +:+
        " for " +:+ interpolate (response expense) +:+ " " +:+ new_line +:+
        "        (Category: " +:+ cat +:+ ", Subcategories: " +:+
        join ", " (subCategory expense) +:+ ") " +:+ new_line +:+
        "        on " +:+ toLocaleDateString (createdAt expense) in
      let doc := mkDocument textContent (Some metadata) in
      do! init_if_needed in
      let! store := get_vectorStore in
      match store with
      | None =>
          throw (mkError "Cannot read properties of null (reading 'addDocuments')")
      | Some store =>
          do! emit (EvAddDocuments [doc]) in
          let! store := external (HNSWLib_addDocuments store [doc]) in
          do! set_vectorStore store in
          do! emit EvSave in
          do! external (HNSWLib_save store) in
          ret true
      end
  end.

(** [doc => !doc.metadata?.initialization] *)
Definition not_initialization (doc : Document) : bool :=
  negb (truthy (metadata_initialization doc)).

(** [async similaritySearch(query, k = 5)] *)
Definition similaritySearch (query : string) (k : option nat) : Async (list Document) :=
  let k := default 5%nat k in
  do! init_if_needed in
  try_catch
    (let! store := get_vectorStore in
     match store with
     | None =>
         throw (mkError "Cannot read properties of null (reading 'similaritySearch')")
     | Some store =>
         do! emit (EvSearch query k) in
         let! results := external (HNSWLib_similaritySearch store query k) in
         ret (List.filter not_initialization results)
     end)
    (fun error =>
       do! emit (EvError ("Error during similarity search: " +:+ message error)) in
       ret []).

End VectorStoreService.

(** ** The pipeline: [processUserInput] *)

Section Pipeline.
Context `{Collaborators}.

(** [createTracedChain(chain, name).call(params)], read at [.text]: the chain
    call under [withRetry] with the default number of retries.  Reading
    [.text] of [undefined] throws. *)
Definition createTracedChain_call (chain : Chain) (params : list (string * string)) : Async string :=
  let! result := withRetry (chain_call chain params) None in
  match result with
  | Some text => ret text
  | None => throw (mkError "Cannot read properties of undefined (reading 'text')")
  end.

Definition lift {A} (c : Completion A) : Async A := fun w => (c, w).

Definition log (line : string) : Async unit := emit (EvLog line).

Definition add_expense_case (categoryData : gmap string (list string))
    (input : string) : Async unit :=
  do! log "💭 Understanding your expense..." in
  let! analysis := createTracedChain_call expenseChain [("text", input)] in
  let! expenseData := lift (JSON_parse analysis) in
  let! expense :=
    new_Expense (data_amount expenseData) (data_category expenseData)
      (default [] (data_sub_category expenseData)) (data_response expenseData) in
  do! save categoryData expense in
  do! addExpense expense in
  do! log "✅ Expense saved:" in
  do! log ("   Amount: " +:+ formatCurrency (amount expense)) in
  do! log ("   Category: " +:+ interpolate (category expense)) in
  do! (if (0 <? length (subCategory expense))%nat
       then log ("   Subcategories: " +:+ join ", " (subCategory expense))
       else ret tt) in
  log ("   Description: " +:+ interpolate (response expense)).

Definition retrieve_case (input : string) : Async unit :=
  do! log "🔍 Analyzing your expenses..." in
  let! results := similaritySearch input None in
  if (length results =? 0)%nat then log "❌ No matching expenses found."
  else
    let expensesText := join new_line (map pageContent results) in
    let! analysis :=
      createTracedChain_call retrievalChain [("query", input); ("expenses", expensesText)] in
    log (new_line +:+ "📊 " +:+ analysis).

(** [async function processUserInput(input)].  The [switch] has two cases and
    no [default]. *)
Definition processUserInput (categoryData : gmap string (list string))
    (input : string) : Async unit :=
  try_catch
    (let! intentResult := createTracedChain_call intentChain [("text", input)] in
     let intent := trim (toLowerCase intentResult) in
     if String.eqb intent "add" then add_expense_case categoryData input
     else if String.eqb intent "retrieve" then retrieve_case input
     else ret tt)
    (fun error => emit (EvError ("❌ Error: " +:+ message error))).

End Pipeline.

(** ** The earlier main loop (intent detection answered in JSON)

    One turn of the [while] loop of [main], after the line has been read and
    is not the quit token.  This variant calls the chains directly. *)

Section MainLoop.
Context `{Collaborators}.

Definition chain_text (chain : Chain) (params : list (string * string)) : Async string :=
  external (chain_call chain params).

(** [async function handleAddExpense(text)].  An undefined [sub-category]
    becomes the empty array, the default of an array path. *)
Definition handleAddExpense (categoryData : gmap string (list string))
    (text : string) : Async unit :=
  let! result := chain_text expenseChain [("text", text)] in
  let! expenseData := lift (JSON_parse result) in
  let! newExpense :=
    new_Expense (data_amount expenseData) (data_category expenseData)
      (default [] (data_sub_category expenseData)) (data_response expenseData) in
  do! save categoryData newExpense in
  do! addExpense newExpense in
  do! log ("Analysis: " +:+ result) in
  log "✅ Expense saved to database and vector store".

Fixpoint numbered (index : nat) (docs : list Document) : list string :=
  match docs with
  | [] => []
  | doc :: rest =>
      (pretty (index + 1)%nat +:+ ". " +:+ pageContent doc) :: numbered (S index) rest
  end.

Fixpoint log_all (lines : list string) : Async unit :=
  match lines with
  | [] => ret tt
  | line :: rest => do! log line in log_all rest
  end.

(** [async function handleRetrieveExpense(text)] *)
Definition handleRetrieveExpense (text : string) : Async unit :=
  do! log "🔍 Searching expenses..." in
  let! searchResults := similaritySearch text None in
  if (length searchResults =? 0)%nat then log "❌ No relevant expenses found"
  else
    let expensesText := join new_line (map pageContent searchResults) in
    let! summary :=
      chain_text summaryChain [("query", text); ("expenses", expensesText)] in
    do! log (new_line +:+ "📊 Summary:") in
    do! log summary in
    do! log (new_line +:+ "📝 Relevant Expenses:") in
    log_all (numbered 0 searchResults).

(** The body of the [try] of [main] from the intent detection on, with its
    [catch]. *)
Definition main_turn (categoryData : gmap string (list string))
    (userInput : string) : Async unit :=
  try_catch
    (let! intentResult := chain_text intentChain [("text", userInput)] in
     let! parsed := lift (JSON_parse_intent intentResult) in
     do! log ("🤖 Detected intent: " +:+ interpolate (data_intent parsed) +:+
              " (confidence: " +:+ data_confidence parsed +:+ "%)") in
     do! (if bool_decide (data_intent parsed = Some "add")
          then handleAddExpense categoryData userInput
          else handleRetrieveExpense userInput) in
     log "-------------------")
    (fun error => emit (EvError ("Error: " +:+ message error))).

End MainLoop.

(** ** Vocabulary of the statements *)

Definition sleeps_of (events : list Event) : list Z :=
  omap (fun ev => match ev with EvSleep ms => Some ms | _ => None end) events.

Definition attempts_of (events : list Event) : list nat :=
  omap (fun ev => match ev with EvAttempt n => Some n | _ => None end) events.

Definition created_indexes (events : list Event) : list (list Document) :=
  omap (fun ev => match ev with EvFromDocuments docs => Some docs | _ => None end) events.

Fixpoint strictly_increasing (l : list Z) : Prop :=
  match l with
  | x :: (y :: _) as rest => x < y /\ strictly_increasing rest
  | _ => True
  end.

Fixpoint non_decreasing (l : list Z) : Prop :=
  match l with
  | x :: (y :: _) as rest => x <= y /\ non_decreasing rest
  | _ => True
  end.

Section RetryRuns.
Context `{Collaborators}.

(** The outside world in which attempt [attempt + j] begins, when the run
    enters attempt [attempt] in [e] and each attempt before it is followed by
    its back-off sleep. *)
Fixpoint env_after {A} (operation : Env -> Completion A * Env)
    (attempt : nat) (e : Env) (j : nat) : Env :=
  match j with
  | O => e
  | S j' =>
      env_after operation (S attempt)
        (elapse (backoff_delay attempt) (snd (operation e))) j'
  end.

(** The outcome of attempt number [i] (counted from 1) of a run of
    [withRetry] started in [e], while every earlier attempt is retried. *)
Definition attempt_outcome {A} (operation : Env -> Completion A * Env)
    (e : Env) (i : nat) : Completion A :=
  fst (operation (env_after operation 1 e (i - 1))).

(** The events of [j] retried attempts followed by one last attempt. *)
Fixpoint retry_events (attempt j : nat) : list Event :=
  match j with
  | O => [EvAttempt attempt]
  | S j' =>
      EvAttempt attempt :: EvLog (retry_notice (backoff_delay attempt)) ::
      EvSleep (backoff_delay attempt) :: retry_events (S attempt) j'
  end.

End RetryRuns.

(** ** A simulated set of collaborators

    A scripted language model, an index kept as the list of its documents,
    and an embeddings endpoint that can be switched off; used to run the
    program on concrete inputs. *)

Record SimEnv := mkSimEnv {
  replies : list (Completion string);
  clock : Z;
  index_file : option (list Document);
  embeddings_down : bool
}.

Definition sim_chain_call (_ : Chain) (_ : list (string * string)) (e : SimEnv)
    : Completion string * SimEnv :=
  match replies e with
  | [] => (Throw (mkError "no reply"), e)
  | r :: rest => (r, mkSimEnv rest (clock e) (index_file e) (embeddings_down e))
  end.

Definition sim_elapse (ms : Z) (e : SimEnv) : SimEnv :=
  mkSimEnv (replies e) (clock e + ms) (index_file e) (embeddings_down e).

Definition embeddings_error : Error := mkError "embeddings request failed".

Definition sim_guard {A} (e : SimEnv) (r : Completion A * SimEnv) : Completion A * SimEnv :=
  if embeddings_down e then (Throw embeddings_error, e) else r.

Definition sim_load (e : SimEnv) : Completion (list Document) * SimEnv :=
  match index_file e with
  | Some docs => (Normal docs, e)
  | None => (Throw (mkError "ENOENT: hnswlib.index"), e)
  end.

Definition sim_save (store : list Document) (e : SimEnv) : Completion unit * SimEnv :=
  (Normal tt, mkSimEnv (replies e) (clock e) (Some store) (embeddings_down e)).

Definition sim_JSON_parse (text : string) : Completion ExpenseData :=
  if String.eqb text "lunch" then
    Normal (mkExpenseData (Some "500") (Some "Food") (Some ["Dining out"])
              (Some "Spent 500 on lunch"))
  else if String.eqb text "bare" then
    Normal (mkExpenseData (Some "500") (Some "Food") None (Some "Spent 500"))
  else Throw (mkError "Unexpected token in JSON").

Definition sim_JSON_parse_intent (text : string) : Completion IntentData :=
  if String.eqb text "intent:add" then Normal (mkIntentData (Some "add") "95.0")
  else if String.eqb text "intent:delete" then Normal (mkIntentData (Some "delete") "80.0")
  else Throw (mkError "Unexpected token in JSON").

#[local] Instance Sim : Collaborators := {|
  Env := SimEnv;
  Handle := list Document;
  elapse := sim_elapse;
  chain_call := sim_chain_call;
  JSON_parse := sim_JSON_parse;
  JSON_parse_intent := sim_JSON_parse_intent;
  new_ObjectId := fun e => ("65f0c0ffee", e);
  Date_now := clock;
  insertOne := fun _ e => (Normal tt, e);
  toISOString := fun _ => "2024-03-01T10:00:00.000Z";
  toLocaleDateString := fun _ => "3/1/2024";
  formatCurrency := fun a => "INR " +:+ interpolate a;
  existsSync_index := fun e => bool_decide (is_Some (index_file e));
  HNSWLib_load := sim_load;
  HNSWLib_fromDocuments := fun docs e => sim_guard e (Normal docs, e);
  HNSWLib_save := sim_save;
  HNSWLib_addDocuments := fun store docs e => sim_guard e (Normal (store ++ docs), e);
  HNSWLib_similaritySearch := fun store _ k e => sim_guard e (Normal (take k store), e)
|}.

(** The taxonomy of the README. *)
Definition readme_categories : gmap string (list string) :=
  {[ "Food" := ["Groceries"; "Dining out"; "Snacks"];
     "Transportation" := ["Fuel"; "Public transport"; "Vehicle maintenance"];
     "Personal Care" := ["Health"; "Gym"; "Beauty"];
     "Shopping" := ["Clothing"; "Electronics"; "Household"];
     "Entertainment" := ["Movies"; "Games"; "Sports"];
     "Bills" := ["Utilities"; "Phone"; "Internet"] ]}.

Definition rate_limited : Completion string :=
  Throw (mkError "429: rate limit reached for requests").

Definition sim_world (e : SimEnv) (store : option (list Document)) : World :=
  mkWorld e [] [] store.

(** Seven rate-limited replies, then the answer. *)
Definition throttled_world : World :=
  sim_world (mkSimEnv (replicate 7 rate_limited ++ [Normal "add"]) 0 None false) None.

(** Two rate-limited replies, then the answer. *)
Definition busy_world : World :=
  sim_world (mkSimEnv [rate_limited; rate_limited; Normal "add"] 0 None false) None.

(** A model that refuses the key. *)
Definition refused_world : World :=
  sim_world (mkSimEnv [Throw (mkError "401: incorrect API key")] 0 None false) None.

(** A definition file whose first line is a bullet. *)
Definition orphan_bullet_data : string :=
  "- Snacks" +:+ new_line +:+ "1. Food" +:+ new_line +:+ "- Dining out".

Definition has_line_feed (s : string) : bool := includes new_line s.

(** A field that holds a non-empty string. *)
Definition present (v : option string) : Prop :=
  exists s, v = Some s /\ s <> EmptyString.

(** The category is a key of the taxonomy. *)
Definition category_known (categoryData : gmap string (list string))
    (doc : Expense) : Prop :=
  exists c, category doc = Some c /\ c ∈ validCategories categoryData.

(** The category is a key of the taxonomy and every subcategory is listed
    under it. *)
Definition subcategories_valid (categoryData : gmap string (list string))
    (doc : Expense) : Prop :=
  exists c subs, category doc = Some c /\ categoryData !! c = Some subs /\
    forall s, s ∈ subCategory doc -> s ∈ subs.

Definition lunch_doc (subCategory : list string) (response : option string) : Expense :=
  mkExpense "65f0c0ffee" (Some "500") (Some "Food") subCategory response 0.

Definition quiet_world : World := sim_world (mkSimEnv [] 0 None false) None.

(** The model answers [add] and then an expense without [sub-category]. *)
Definition bare_world : World :=
  sim_world (mkSimEnv [Normal " Add "; Normal "bare"] 0 None false) None.

Definition coffee_doc : Document :=
  mkDocument "[FOOD] Expense of 120 for coffee"
    (Some {[ "id" := JsString "65f0c0ffee"; "category" := JsString "Food" ]}).

(** An attached index that holds the initialization document and one
    expense; the marker file exists. *)
Definition indexed_world : World :=
  sim_world (mkSimEnv [] 0 (Some [dummyDoc; coffee_doc]) false)
    (Some [dummyDoc; coffee_doc]).

(** The same index with the embeddings endpoint down. *)
Definition offline_world : World :=
  sim_world (mkSimEnv [] 0 (Some [dummyDoc; coffee_doc]) true)
    (Some [dummyDoc; coffee_doc]).

(** Nothing attached, no marker file, and the embeddings endpoint down. *)
Definition cold_offline_world : World :=
  sim_world (mkSimEnv [] 0 None true) None.

(** The model answers with a word that is neither intent. *)
Definition puzzled_world : World :=
  sim_world (mkSimEnv [Normal "Delete"] 0 None false) None.

(** The earlier loop is told an intent that is neither [add] nor
    [retrieve]; the index holds one expense. *)
Definition puzzled_loop_world : World :=
  sim_world (mkSimEnv [Normal "intent:delete"; Normal "You spent 120 on coffee."] 0
               (Some [dummyDoc; coffee_doc]) false)
    (Some [dummyDoc; coffee_doc]).

(** The handler of the [catch] clause of [processUserInput]. *)
Definition report_error `{Collaborators} (error : Error) : Async unit :=
  emit (EvError ("❌ Error: " +:+ message error)).

(** The open category is always a key of [categories]. *)
Definition open_category_known
    (st : gmap string (list string) * option string) : Prop :=
  forall cur, snd st = Some cur -> is_Some (fst st !! cur).

(** ** The line handler of the pipeline

    [rl.on('line', async (input) => ...)]: one invocation.  [process.exit(0)]
    ends the process; the handler then yields the exit code. *)




Section LineHandler.
Context `{Collaborators}.


End LineHandler.

(** ** The vector store script (test-vector-store.js)

    [inspect] renders the result list the way [console.log] prints an array.
    The script's expense is a plain object; its numeric amount 1000 is
    written as the string it interpolates to. *)

Section TestVectorStore.
Context `{Collaborators}.
Variable inspect : list Document -> string.

Definition testExpense (now : Z) : Expense :=
  mkExpense "test123" (Some "1000") (Some "Food") ["Restaurant"; "Dinner"]
    (Some "dinner at a restaurant") now.

Definition Date_new : Async Z := fun w => (Normal (Date_now (ext w)), w).

(** [async function testVectorStore()].  The service has no [deleteExpense]
    method, so calling it throws a TypeError. *)
Definition testVectorStore : Async unit :=
  try_catch
    (do! init in
     do! log "✅ Successfully initialized vector store" in
     let! now := Date_new in
     do! addExpense (testExpense now) in
     do! log "✅ Successfully added test expense" in
     let! results := similaritySearch "food expenses" None in
     do! log "✅ Successfully performed similarity search" in
     do! log ("Search results: " +:+ inspect results) in
     do! (throw (mkError "vectorStore.deleteExpense is not a function") : Async unit) in
     log "✅ Successfully deleted test expense")
    (fun error => emit (EvError ("❌ Test failed: " +:+ message error))).

End TestVectorStore.

(** ** Further vocabulary *)

(** The events that stand for a call into the index library. *)
Definition is_index_event (ev : Event) : bool :=
  match ev with
  | EvLoad | EvFromDocuments _ | EvSave | EvAddDocuments _ | EvSearch _ _ => true
  | _ => false
  end.

(** The events that write to the index, in memory or on disk. *)
Definition is_index_write (ev : Event) : bool :=
  match ev with
  | EvFromDocuments _ | EvSave | EvAddDocuments _ => true
  | _ => false
  end.

Definition added_documents (events : list Event) : list Document :=
  concat (omap (fun ev => match ev with EvAddDocuments docs => Some docs | _ => None end)
            events).

Fixpoint sum_list (l : list Z) : Z :=
  match l with
  | [] => 0
  | x :: rest => x + sum_list rest
  end.

(** What [withRetry] makes of the outcome of its last attempt. *)
Definition returned {A} (c : Completion A) : Completion (option A) :=
  match c with
  | Normal v => Normal (Some v)
  | Throw error => Throw error
  end.

(** The lines of a definition that open a category, and those that are
    bullets. *)
Definition opens_category (line name : string) : Prop :=
  exists m, categoryMatch line = Some m /\ name = trim m.

Definition is_bullet_of (line sub : string) : Prop :=
  startsWith "-" (trim line) = true /\ sub = trim (remove_first "-" line).

(** A line that [parseCategoryData] skips at once. *)
Definition is_skipped (line : string) : bool :=
  (is_empty (trim line) || includes "Expense Categories:" line)%bool.

(** A definition that names a category twice. *)
Definition repeated_category_data : string :=
  "1. Food" +:+ new_line +:+ "- Snacks".

(** An index that exists on disk, nothing attached yet, and an embeddings
    endpoint that is down. *)
Definition detached_offline_world : World :=
  sim_world (mkSimEnv [] 0 (Some [dummyDoc; coffee_doc]) true) None.

(** One rate-limited reply, then a refusal. *)
Definition refused_later_world : World :=
  sim_world (mkSimEnv [rate_limited; Throw (mkError "401: incorrect API key")] 0 None false)
    None.

(** [line.replace('-', '').trim()], the subcategory a bullet line stands for. *)
Definition bullet_text (line : string) : string := trim (remove_first "-" line).

(** Every category of [categories] is opened by a line of [lines], and every
    subcategory listed is the text of a bullet line of [lines]. *)
Definition taxonomy_from (lines : list string)
    (categories : gmap string (list string)) : Prop :=
  forall name subs, categories !! name = Some subs ->
    (exists line, line ∈ lines /\ opens_category line name) /\
    (forall sub, sub ∈ subs -> exists line, line ∈ lines /\ is_bullet_of line sub).

(** No name carries white space at either end. *)
Definition names_trimmed (categories : gmap string (list string)) : Prop :=
  forall name subs, categories !! name = Some subs ->
    trim name = name /\ forall sub, sub ∈ subs -> trim sub = sub.

(** A line that can stand in a definition as a bullet. *)
Definition bullet_line (line : string) : Prop :=
  has_line_feed line = false /\ is_skipped line = false /\
  startsWith "-" (trim line) = true.

(** The document that [addExpense] builds for an expense of category [cat]. *)
Definition expense_document `{Collaborators} (expense : Expense) (cat : string)
    : Document :=
  mkDocument
    ("[" +:+ toUpperCase cat +:+ "] Expense of â‚¹" +:+ interpolate (amount expense) +:+
     " for " +:+ interpolate (response expense) +:+ " " +:+ new_line +:+
     "        (Category: " +:+ cat +:+ ", Subcategories: " +:+
     join ", " (subCategory expense) +:+ ") " +:+ new_line +:+
     "        on " +:+ toLocaleDateString (createdAt expense))
    (Some {[ "id" := JsString (_id expense);
             "amount" := js_value (amount expense);
             "category" := js_value (category expense);
             "subCategory" := JsArray (subCategory expense);
             "date" := JsString (toISOString (createdAt expense)) ]}).

(** The simulated collaborators with an index directory that cannot be
    written. *)
Definition SimReadOnly : Collaborators := {|
  Env := SimEnv;
  Handle := list Document;
  elapse := sim_elapse;
  chain_call := sim_chain_call;
  JSON_parse := sim_JSON_parse;
  JSON_parse_intent := sim_JSON_parse_intent;
  new_ObjectId := fun e => ("65f0c0ffee", e);
  Date_now := clock;
  insertOne := fun _ e => (Normal tt, e);
  toISOString := fun _ => "2024-03-01T10:00:00.000Z";
  toLocaleDateString := fun _ => "3/1/2024";
  formatCurrency := fun a => "INR " +:+ interpolate a;
  existsSync_index := fun e => bool_decide (is_Some (index_file e));
  HNSWLib_load := sim_load;
  HNSWLib_fromDocuments := fun docs e => sim_guard e (Normal docs, e);
  HNSWLib_save := fun _ e => (Throw (mkError "EACCES: permission denied"), e);
  HNSWLib_addDocuments := fun store docs e => sim_guard e (Normal (store ++ docs), e);
  HNSWLib_similaritySearch := fun store _ k e => sim_guard e (Normal (take k store), e)
|}.

Definition read_only_world : @World SimReadOnly :=
  @mkWorld SimReadOnly (mkSimEnv [] 0 None false) [] [] None.

Definition read_only_indexed_world : @World SimReadOnly :=
  @mkWorld SimReadOnly (mkSimEnv [] 0 (Some [dummyDoc]) false) [] [] (Some [dummyDoc]).

(** The document that the add case builds from the parsed answer. *)
Definition candidate_expense (data : ExpenseData) (id : string) (now : Z) : Expense :=
  mkExpense id (data_amount data) (data_category data)
    (default [] (data_sub_category data)) (data_response data) now.

(** A computation that leaves the collection as it is. *)
Definition keeps_collection `{Collaborators} {A} (m : Async A) : Prop :=
  forall w, collection (snd (m w)) = collection w.


(** A taxonomy without the category Food. *)
Definition bills_only : gmap string (list string) := {[ "Bills" := ["Phone"] ]}.

(** The model answers [add] and then a lunch expense; an index is attached. *)
Definition lunch_world : World :=
  sim_world (mkSimEnv [Normal "add"; Normal "lunch"] 0 (Some [dummyDoc]) false)
    (Some [dummyDoc]).

(** The same with the embeddings endpoint down. *)
Definition offline_lunch_world : World :=
  sim_world (mkSimEnv [Normal "add"; Normal "lunch"] 0 (Some [dummyDoc]) true)
    (Some [dummyDoc]).

(** The model answers [retrieve]; the embeddings endpoint is down. *)
Definition offline_retrieve_world : World :=
  sim_world (mkSimEnv [Normal "Retrieve"] 0 (Some [dummyDoc; coffee_doc]) true)
    (Some [dummyDoc; coffee_doc]).

(** The world right after a line has been logged. *)
Definition logged `{Collaborators} (line : string) (w : World) : World :=
  mkWorld (ext w) (trace w ++ [EvLog line]) (collection w) (vectorStore w).

Definition index_events (events : list Event) : list Event :=
  List.filter is_index_event events.

(** Collaborators whose index handles are objects with an identity: every
    load and every creation yields a new object, numbered in order; the
    saved index is the list of its documents. *)
Record ObjectEnv := mkObjectEnv {
  saved_index : option (list Document);
  next_object : nat
}.

Definition objects_load (e : ObjectEnv) : Completion (nat * list Document) * ObjectEnv :=
  match saved_index e with
  | Some docs =>
      (Normal (next_object e, docs), mkObjectEnv (saved_index e) (S (next_object e)))
  | None => (Throw (mkError "ENOENT: hnswlib.index"), e)
  end.

Definition SimObjects : Collaborators := {|
  Env := ObjectEnv;
  Handle := nat * list Document;
  elapse := fun _ e => e;
  chain_call := fun _ _ e => (Throw (mkError "no reply"), e);
  JSON_parse := sim_JSON_parse;
  JSON_parse_intent := sim_JSON_parse_intent;
  new_ObjectId := fun e => ("65f0c0ffee", e);
  Date_now := fun _ => 0;
  insertOne := fun _ e => (Normal tt, e);
  toISOString := fun _ => "2024-03-01T10:00:00.000Z";
  toLocaleDateString := fun _ => "3/1/2024";
  formatCurrency := fun a => "INR " +:+ interpolate a;
  existsSync_index := fun e => bool_decide (is_Some (saved_index e));
  HNSWLib_load := objects_load;
  HNSWLib_fromDocuments := fun docs e =>
    (Normal (next_object e, docs), mkObjectEnv (saved_index e) (S (next_object e)));
  HNSWLib_save := fun store e => (Normal tt, mkObjectEnv (Some (snd store)) (next_object e));
  HNSWLib_addDocuments := fun store docs e => (Normal (fst store, snd store ++ docs), e);
  HNSWLib_similaritySearch := fun store _ k e => (Normal (take k (snd store)), e)
|}.

(** No marker file, nothing attached, no object made yet. *)
Definition objects_world : @World SimObjects :=
  @mkWorld SimObjects (mkObjectEnv None 0) [] [] None.

(** * Theorems *)

(** ** The retry wrapper *)

Section RetryFacts.
Context `{Collaborators}.

Lemma backoff_delay_cap (attempt : nat) : backoff_delay attempt <= 60000.
Proof. unfold backoff_delay. apply Z.le_min_r. Qed.

Lemma backoff_delay_pos (attempt : nat) : 0 < backoff_delay attempt.
Proof.
  unfold backoff_delay. apply Z.min_glb_lt; [|lia].
  assert (0 < 2 ^ Z.of_nat attempt) by (apply Z.pow_pos_nonneg; lia). lia.
Qed.

Lemma backoff_delay_mono (attempt : nat) :
  backoff_delay attempt <= backoff_delay (S attempt).
Proof.
  unfold backoff_delay. apply Z.min_le_compat_r.
  rewrite Nat2Z.inj_succ, Z.pow_succ_r by lia.
  assert (0 < 2 ^ Z.of_nat attempt) by (apply Z.pow_pos_nonneg; lia). lia.
Qed.

Lemma backoff_delay_strict (attempt : nat) :
  (attempt <= 5)%nat -> backoff_delay attempt < backoff_delay (S attempt).
Proof.
  intros Hle.
  do 6 (destruct attempt as [|attempt]; [vm_compute; reflexivity|]). lia.
Qed.

(** One iteration of the loop. *)
Lemma withRetry_loop_unfold {A} (operation : Env -> Completion A * Env)
    (maxRetries remaining attempt : nat) (w : World) :
  withRetry_loop operation maxRetries (S remaining) attempt w =
  let tr := trace w ++ [EvAttempt attempt] in
  match operation (ext w) with
  | (Normal v, e) => (Normal (Some v), mkWorld e tr (collection w) (vectorStore w))
  | (Throw error, e) =>
      if signals_rate_limit error && Nat.ltb attempt maxRetries then
        withRetry_loop operation maxRetries remaining (S attempt)
          (mkWorld (elapse (backoff_delay attempt) e)
             (tr ++ [EvLog (retry_notice (backoff_delay attempt));
                     EvSleep (backoff_delay attempt)]) (collection w) (vectorStore w))
      else (Throw error, mkWorld e tr (collection w) (vectorStore w))
  end.
Proof.
  cbn [withRetry_loop].
  unfold try_catch, bind, emit, external, ret, set_ext, sleep, throw.
  cbn -[Nat.ltb backoff_delay retry_notice].
  destruct (operation (ext w)) as [[v|error] e];
    cbn -[Nat.ltb backoff_delay retry_notice]; [reflexivity|].
  destruct (signals_rate_limit error && Nat.ltb attempt maxRetries);
    [|reflexivity].
  unfold set_ext. cbn -[Nat.ltb backoff_delay retry_notice].
  rewrite <- !app_assoc. reflexivity.
Qed.

(** [j] rate-limited attempts and then a success, from any point of the loop. *)
Lemma withRetry_loop_succeeds {A} (operation : Env -> Completion A * Env)
    (maxRetries : nat) (v : A) (j : nat) :
  forall (remaining attempt : nat) (w : World),
    (j < remaining)%nat ->
    (attempt + j <= maxRetries)%nat ->
    (forall i, (i < j)%nat -> exists error,
        fst (operation (env_after operation attempt (ext w) i)) = Throw error /\
        signals_rate_limit error = true) ->
    fst (operation (env_after operation attempt (ext w) j)) = Normal v ->
    withRetry_loop operation maxRetries remaining attempt w =
    (Normal (Some v),
     mkWorld (snd (operation (env_after operation attempt (ext w) j)))
       (trace w ++ retry_events attempt j) (collection w) (vectorStore w)).
Proof.
  induction j as [|j IH]; intros remaining attempt w Hrem Hmax Hfail Hok.
  - destruct remaining as [|remaining]; [lia|].
    rewrite withRetry_loop_unfold. cbn in Hok |- *.
    destruct (operation (ext w)) as [[v'|error] e]; cbn in Hok |- *; congruence.
  - destruct remaining as [|remaining]; [lia|].
    rewrite withRetry_loop_unfold.
    destruct (Hfail 0%nat ltac:(lia)) as (error & Hthrow & Hsig).
    assert (Hlt : Nat.ltb attempt maxRetries = true) by (apply Nat.ltb_lt; lia).
    cbn [env_after] in Hthrow, Hok. cbv zeta.
    destruct (operation (ext w)) as [[v'|error'] e] eqn:Hop;
      cbn [fst snd] in Hthrow, Hok; [discriminate|].
    injection Hthrow as ->. rewrite Hsig, Hlt. cbn [andb].
    rewrite IH; cbn [ext trace collection vectorStore].
    + cbn [retry_events env_after]. rewrite Hop. cbn [snd].
      rewrite <- !app_assoc. reflexivity.
    + lia.
    + lia.
    + intros i Hi. destruct (Hfail (S i) ltac:(lia)) as (err & Herr & Hs).
      cbn [env_after] in Herr. rewrite Hop in Herr. eauto.
    + exact Hok.
Qed.

Lemma sleeps_of_retry_events (attempt j : nat) :
  sleeps_of (retry_events attempt j) = map backoff_delay (seq attempt j).
Proof.
  revert attempt; induction j as [|j IH]; intros attempt; [reflexivity|].
  cbn. f_equal. apply IH.
Qed.

Lemma attempts_of_retry_events (attempt j : nat) :
  attempts_of (retry_events attempt j) = seq attempt (S j).
Proof.
  revert attempt; induction j as [|j IH]; intros attempt; [reflexivity|].
  cbn [retry_events]. cbn. f_equal. apply IH.
Qed.

Lemma backoff_non_decreasing (attempt j : nat) :
  non_decreasing (map backoff_delay (seq attempt j)).
Proof.
  revert attempt; induction j as [|j IH]; intros attempt; [exact I|].
  destruct j as [|j]; [exact I|].
  split; [apply backoff_delay_mono | apply (IH (S attempt))].
Qed.

Lemma backoff_strictly_increasing (attempt j : nat) :
  (attempt + j <= 7)%nat ->
  strictly_increasing (map backoff_delay (seq attempt j)).
Proof.
  revert attempt; induction j as [|j IH]; intros attempt Hle; [exact I|].
  destruct j as [|j]; [exact I|].
  split; [apply backoff_delay_strict; lia | apply (IH (S attempt)); lia].
Qed.

End RetryFacts.

(** C1 (as amended).  When the operation fails with a rate-limit error on
    attempts 1..n-1 and succeeds on attempt n, with n at most [maxRetries],
    [withRetry] returns the value of attempt n after exactly n attempts.  It
    sleeps [min(1000 * 2^i, 60000)] ms after attempt i: delays that never
    decrease and never exceed 60 s, and that strictly increase as long as
    n is at most 7. *)
Theorem withRetry_returns_after_backoff `{Collaborators} {A}
    (operation : Env -> Completion A * Env) (maxRetries : option nat)
    (n : nat) (v : A) (w : World) :
  (1 <= n <= default 3 maxRetries)%nat ->
  (forall i, (1 <= i < n)%nat -> exists error,
      attempt_outcome operation (ext w) i = Throw error /\
      signals_rate_limit error = true) ->
  attempt_outcome operation (ext w) n = Normal v ->
  exists w' events,
    withRetry operation maxRetries w = (Normal (Some v), w') /\
    trace w' = trace w ++ events /\
    attempts_of events = seq 1 n /\
    sleeps_of events = map backoff_delay (seq 1 (n - 1)) /\
    Forall (fun delay => 0 < delay <= 60000) (sleeps_of events) /\
    non_decreasing (sleeps_of events) /\
    ((n <= 7)%nat -> strictly_increasing (sleeps_of events)).
Proof.
  intros Hn Hfail Hok. unfold attempt_outcome in Hfail, Hok.
  destruct n as [|j]; [lia|]. replace (S j - 1)%nat with j in * by lia.
  eexists _, (retry_events 1 j). split.
  { unfold withRetry. apply withRetry_loop_succeeds with (j := j); [lia|lia| |exact Hok].
    intros i Hi. destruct (Hfail (S i) ltac:(lia)) as (error & He & Hs).
    replace (S i - 1)%nat with i in He by lia. eauto. }
  split; [reflexivity|].
  rewrite attempts_of_retry_events, sleeps_of_retry_events.
  split; [reflexivity|]. split; [reflexivity|]. split; [|split].
  - apply Forall_forall. intros d Hd. apply list_elem_of_In, in_map_iff in Hd.
    destruct Hd as (i & <- & _).
    split; [apply backoff_delay_pos | apply backoff_delay_cap].
  - apply backoff_non_decreasing.
  - intros Hle. apply backoff_strictly_increasing. lia.
Qed.

Lemma withRetry_returns_after_backoff_witness :
  exists w' events,
    withRetry (chain_call intentChain [("text", "spent 500 on lunch")]) None busy_world
      = (Normal (Some "add"), w') /\
    trace w' = trace busy_world ++ events /\
    attempts_of events = seq 1 3 /\
    sleeps_of events = map backoff_delay (seq 1 (3 - 1)) /\
    Forall (fun delay => 0 < delay <= 60000) (sleeps_of events) /\
    non_decreasing (sleeps_of events) /\
    ((3 <= 7)%nat -> strictly_increasing (sleeps_of events)).
Proof.
  apply (withRetry_returns_after_backoff
           (chain_call intentChain [("text", "spent 500 on lunch")]) None 3 "add" busy_world).
  - cbn. lia.
  - intros i Hi. assert (i = 1 \/ i = 2)%nat as [-> | ->] by lia;
      (eexists; split; [vm_compute; reflexivity | vm_compute; reflexivity]).
  - vm_compute. reflexivity.
Defined.

Example withRetry_busy_trace :
  trace (snd (withRetry (chain_call intentChain []) None busy_world)) =
    [EvAttempt 1; EvLog "⏳ Rate limit hit. Retrying in 2 seconds..."; EvSleep 2000;
     EvAttempt 2; EvLog "⏳ Rate limit hit. Retrying in 4 seconds..."; EvSleep 4000;
     EvAttempt 3].
Proof. vm_compute. reflexivity. Qed.

(** C1, as stated, fails: with eight attempts allowed and seven rate-limited
    failures before the success, the last two sleeps both last 60 s. *)
Lemma withRetry_delays_reach_the_cap :
  (forall i, (1 <= i < 8)%nat -> exists error,
      attempt_outcome (chain_call intentChain []) (ext throttled_world) i = Throw error /\
      signals_rate_limit error = true) /\
  attempt_outcome (chain_call intentChain []) (ext throttled_world) 8 = Normal "add" /\
  fst (withRetry (chain_call intentChain []) (Some 8%nat) throttled_world)
    = Normal (Some "add") /\
  sleeps_of (trace (snd (withRetry (chain_call intentChain []) (Some 8%nat) throttled_world)))
    = [2000; 4000; 8000; 16000; 32000; 60000; 60000] /\
  ~ strictly_increasing
      (sleeps_of (trace (snd (withRetry (chain_call intentChain []) (Some 8%nat)
                                throttled_world)))).
Proof.
  split; [|split; [|split; [|split]]].
  - intros i Hi.
    assert (i = 1 \/ i = 2 \/ i = 3 \/ i = 4 \/ i = 5 \/ i = 6 \/ i = 7)%nat
      as [-> | [-> | [-> | [-> | [-> | [-> | ->]]]]]] by lia;
      (eexists; split; [vm_compute; reflexivity | vm_compute; reflexivity]).
  - vm_compute. reflexivity.
  - vm_compute. reflexivity.
  - vm_compute. reflexivity.
  - assert (Hs : sleeps_of (trace (snd (withRetry (chain_call intentChain [])
                                          (Some 8%nat) throttled_world)))
                 = [2000; 4000; 8000; 16000; 32000; 60000; 60000])
      by (vm_compute; reflexivity).
    rewrite Hs. cbn. lia.
Qed.

(** C2.  When the first attempt fails with an error that does not signal a
    rate limit, [withRetry] throws that very error: one attempt is made, no
    sleep takes place, and the world is the one the failed call left. *)
Theorem withRetry_propagates_other_errors `{Collaborators} {A}
    (operation : Env -> Completion A * Env) (maxRetries : option nat)
    (w : World) (error : Error) (e : Env) :
  (1 <= default 3 maxRetries)%nat ->
  operation (ext w) = (Throw error, e) ->
  signals_rate_limit error = false ->
  withRetry operation maxRetries w =
    (Throw error, mkWorld e (trace w ++ [EvAttempt 1]) (collection w) (vectorStore w)) /\
  sleeps_of (trace (snd (withRetry operation maxRetries w))) = sleeps_of (trace w) /\
  attempts_of (trace (snd (withRetry operation maxRetries w))) = attempts_of (trace w) ++ [1%nat].
Proof.
  intros Hmax Hop Hsig.
  assert (Hrun : withRetry operation maxRetries w =
    (Throw error, mkWorld e (trace w ++ [EvAttempt 1]) (collection w) (vectorStore w))).
  { unfold withRetry. destruct (default 3%nat maxRetries) as [|m] eqn:Hm; [lia|].
    rewrite withRetry_loop_unfold, Hop, Hsig. reflexivity. }
  rewrite Hrun. cbn [snd trace]. unfold sleeps_of, attempts_of.
  rewrite !omap_app. cbn. rewrite app_nil_r. auto.
Qed.

Lemma withRetry_propagates_other_errors_witness :
  withRetry (chain_call intentChain []) None refused_world =
    (Throw (mkError "401: incorrect API key"),
     mkWorld (mkSimEnv [] 0 None false) (trace refused_world ++ [EvAttempt 1])
       (collection refused_world) (vectorStore refused_world)) /\
  sleeps_of (trace (snd (withRetry (chain_call intentChain []) None refused_world)))
    = sleeps_of (trace refused_world) /\
  attempts_of (trace (snd (withRetry (chain_call intentChain []) None refused_world)))
    = attempts_of (trace refused_world) ++ [1%nat].
Proof.
  apply (withRetry_propagates_other_errors (chain_call intentChain []) None refused_world).
  - cbn. lia.
  - reflexivity.
  - vm_compute. reflexivity.
Defined.

(** ** The category taxonomy *)

Example categoryMatch_plain : categoryMatch "1. Food" = Some "Food".
Proof. reflexivity. Qed.

Example categoryMatch_carriage_return :
  categoryMatch ("12.  Personal Care" +:+ String CR EmptyString) = Some "Personal Care".
Proof. reflexivity. Qed.

Example categoryMatch_needs_space : categoryMatch "1.Food" = None.
Proof. reflexivity. Qed.

Example categoryMatch_trailing_blanks : categoryMatch "1.   " = Some " ".
Proof. reflexivity. Qed.

Example parseCategoryData_sample :
  parseCategoryData
    ("Expense Categories:" +:+ new_line +:+ "1. Food" +:+ new_line +:+
     "   - Groceries" +:+ new_line +:+ "   - Dining out" +:+ new_line +:+
     new_line +:+ "2. Bills" +:+ new_line +:+ "   - Phone" +:+ new_line)
  = Normal {[ "Food" := ["Groceries"; "Dining out"]; "Bills" := ["Phone"] ]}.
Proof. vm_compute. reflexivity. Qed.

Lemma split_lines_not_nil (s : string) : split_lines s <> [].
Proof.
  induction s as [|c s IH]; cbn; [discriminate|].
  destruct (Ascii.eqb c LF); [discriminate|].
  destruct (split_lines s); [contradiction|discriminate].
Qed.

Lemma has_line_feed_cons (c : ascii) (s : string) :
  has_line_feed (String c s) = (Ascii.eqb c LF || has_line_feed s)%bool.
Proof.
  unfold has_line_feed, new_line. cbn [includes String.prefix].
  rewrite (Ascii.eqb_sym c LF).
  destruct (ascii_dec LF c) as [Heq|Hne].
  - subst c. rewrite Ascii.eqb_refl. destruct s; reflexivity.
  - apply Ascii.eqb_neq in Hne. rewrite Hne. reflexivity.
Qed.

(** Splitting after a first line that holds no line feed. *)
Lemma split_lines_first (line rest : string) :
  has_line_feed line = false ->
  split_lines (line +:+ new_line +:+ rest) = line :: split_lines rest.
Proof.
  induction line as [|c line IH]; intros Hlf.
  - cbn. reflexivity.
  - rewrite has_line_feed_cons in Hlf. apply orb_false_iff in Hlf as [Hc Hl].
    change (String c line +:+ new_line +:+ rest)
      with (String c (line +:+ new_line +:+ rest)).
    cbn [split_lines]. rewrite Hc, (IH Hl). reflexivity.
Qed.

Lemma white_space_not_digit (c : ascii) : is_white_space c = true -> is_digit c = false.
Proof.
  destruct c as [[] [] [] [] [] [] [] []]; cbn; intros Hc;
    first [reflexivity | discriminate].
Qed.

Lemma trimEnd_head (p : ascii) (s : string) :
  startsWith (String p EmptyString) (trimEnd s) = true ->
  exists rest, s = String p rest.
Proof.
  unfold startsWith. destruct s as [|c s]; cbn; [discriminate|].
  destruct (is_white_space c && is_empty (trimEnd s)); cbn; [discriminate|].
  destruct (ascii_dec p c) as [->|Hne]; [eauto|discriminate].
Qed.

(** A line whose trimmed text starts with a dash is not a category line. *)
Lemma bullet_is_no_category (line : string) :
  startsWith "-" (trim line) = true -> categoryMatch line = None.
Proof.
  intros Hb. unfold trim in Hb. apply trimEnd_head in Hb as [rest Hrest].
  unfold categoryMatch. destruct line as [|c line]; [reflexivity|].
  cbn [takeWhile]. cbn [trimStart] in Hrest.
  destruct (is_white_space c) eqn:Hws.
  - rewrite (white_space_not_digit c Hws). reflexivity.
  - injection Hrest as -> _. reflexivity.
Qed.

(** While no category is open, a line that is not a category line leaves
    the parser state as it is. *)
Lemma parse_line_no_category (categories : gmap string (list string)) (line : string) :
  categoryMatch line = None ->
  parse_line (categories, None) line = Normal (categories, None).
Proof.
  intros Hm. unfold parse_line. rewrite Hm.
  destruct (is_empty (trim line) || includes "Expense Categories:" line); reflexivity.
Qed.

Lemma parse_line_total (st : gmap string (list string) * option string) (line : string) :
  open_category_known st ->
  exists st', parse_line st line = Normal st' /\ open_category_known st'.
Proof.
  destruct st as [categories currentCategory]. intros Hinv. unfold parse_line.
  destruct (is_empty (trim line) || includes "Expense Categories:" line); [eauto|].
  destruct (categoryMatch line) as [m|].
  - eexists; split; [reflexivity|]. intros cur [= <-]. cbn.
    rewrite lookup_insert_eq. eauto.
  - destruct currentCategory as [cur|]; [|eauto].
    destruct (negb (is_empty cur) && startsWith "-" (trim line)); [|eauto].
    destruct (Hinv cur eq_refl) as [subs Hsubs]. cbn in Hsubs. rewrite Hsubs.
    eexists; split; [reflexivity|]. intros cur' [= <-]. cbn.
    rewrite lookup_insert_eq. eauto.
Qed.

Lemma parse_lines_total (lines : list string) :
  forall st, open_category_known st ->
  exists st', parse_lines st lines = Normal st'.
Proof.
  induction lines as [|line lines IH]; intros st Hinv; cbn; [eauto|].
  destruct (parse_line_total st line Hinv) as (st' & -> & Hinv'). apply IH, Hinv'.
Qed.

(** [parseCategoryData] returns a taxonomy for every text. *)
Lemma parseCategoryData_total (data : string) :
  exists categories, parseCategoryData data = Normal categories.
Proof.
  unfold parseCategoryData.
  destruct (parse_lines_total (split_lines data) (∅, None)) as ([c cur] & ->); [|eauto].
  intros cur [=].
Qed.

(** C7 (as amended).  Parsing the definition never fails: a bullet line that
    comes before any category line is skipped, and the taxonomy is the one of
    the remaining lines. *)
Theorem load_skips_bullet_before_category (line rest : string) :
  has_line_feed line = false ->
  startsWith "-" (trim line) = true ->
  load_categoryData (Some (line +:+ new_line +:+ rest)) = load_categoryData (Some rest) /\
  exists categories, load_categoryData (Some rest) = Normal categories.
Proof.
  intros Hlf Hbullet. split; [|apply parseCategoryData_total].
  cbn [load_categoryData]. unfold parseCategoryData.
  rewrite (split_lines_first line rest Hlf). cbn [parse_lines].
  rewrite parse_line_no_category by (apply bullet_is_no_category, Hbullet).
  reflexivity.
Qed.

Lemma load_skips_bullet_before_category_witness :
  load_categoryData (Some ("- Snacks" +:+ new_line +:+ "1. Food"))
    = load_categoryData (Some "1. Food") /\
  exists categories, load_categoryData (Some "1. Food") = Normal categories.
Proof.
  apply (load_skips_bullet_before_category "- Snacks" "1. Food");
    vm_compute; reflexivity.
Defined.

(** C7, as stated, fails: a definition that starts with a bullet line loads
    without error. *)
Lemma load_accepts_orphan_bullet :
  load_categoryData (Some orphan_bullet_data) = Normal {[ "Food" := ["Dining out"] ]}.
Proof. vm_compute. reflexivity. Qed.

(** ** The Expense schema *)

Lemma is_empty_spec (s : string) : is_empty s = true <-> s = EmptyString.
Proof. destruct s; cbn; split; congruence. Qed.

Lemma checkRequired_spec (v : option string) : checkRequired v = true <-> present v.
Proof.
  unfold checkRequired, present. destruct v as [s|].
  - rewrite negb_true_iff. split.
    + intros Hs. exists s. split; [reflexivity|].
      intros ->. discriminate.
    + intros (s' & [= <-] & Hne). destruct s; [contradiction|reflexivity].
  - split; [discriminate|]. intros (s & [=] & _).
Qed.

Lemma subCategory_validator_spec (categoryData : gmap string (list string))
    (doc : Expense) (subcats : list string) :
  subCategory_validator categoryData doc subcats = true <->
  forall s, s ∈ subcats ->
    s ∈ default [] (categoryData !! property_key (category doc)).
Proof.
  unfold subCategory_validator. rewrite forallb_forall. split.
  - intros Hall s Hs. apply list_elem_of_In in Hs.
    apply Hall in Hs. apply bool_decide_eq_true in Hs. exact Hs.
  - intros Hall s Hs. apply bool_decide_eq_true, Hall, list_elem_of_In, Hs.
Qed.

Lemma enum_installed_spec (categoryData : gmap string (list string)) :
  enum_installed categoryData = true <-> categoryData <> ∅.
Proof.
  unfold enum_installed, validCategories.
  destruct (elements (dom categoryData)) as [|k ks] eqn:Hkeys.
  - split; [discriminate|]. intros Hne. exfalso. apply Hne.
    apply dom_empty_iff_L. apply leibniz_equiv, elements_empty_iff. exact Hkeys.
  - split; [|reflexivity]. intros _ Hempty. subst categoryData.
    rewrite dom_empty_L, elements_empty in Hkeys. discriminate.
Qed.

Lemma category_known_nonempty (categoryData : gmap string (list string)) (doc : Expense) :
  category_known categoryData doc -> categoryData <> ∅.
Proof.
  intros (c & _ & Hin) ->. unfold validCategories in Hin.
  rewrite dom_empty_L in Hin. apply elem_of_empty in Hin. exact Hin.
Qed.

Lemma validate_category_nil (categoryData : gmap string (list string)) (doc : Expense) :
  validate_category categoryData doc = [] <->
  present (category doc) /\ (categoryData <> ∅ -> category_known categoryData doc).
Proof.
  unfold validate_category, category_known, present.
  destruct (category doc) as [c|].
  - destruct (is_empty c) eqn:Hc.
    + apply is_empty_spec in Hc. subst c. split; [discriminate|].
      intros [(s & [= <-] & Hne) _]. contradiction.
    + assert (Hpresent : exists s, Some c = Some s /\ s <> EmptyString).
      { exists c. split; [reflexivity|]. intros ->. discriminate. }
      destruct (enum_installed categoryData) eqn:Henum; cbn [negb orb].
      * apply enum_installed_spec in Henum.
        destruct (bool_decide (c ∈ validCategories categoryData)) eqn:Hin.
        -- apply bool_decide_eq_true in Hin. split; [|reflexivity]. intros _.
           split; [exact Hpresent|]. intros _. exists c. auto.
        -- apply bool_decide_eq_false in Hin. split; [discriminate|].
           intros [_ Hk]. destruct (Hk Henum) as (c' & [= <-] & Hin'). contradiction.
      * split; [|reflexivity]. intros _. split; [exact Hpresent|].
        intros Hne. apply enum_installed_spec in Hne. congruence.
  - split; [discriminate|]. intros [(s & [=] & _) _].
Qed.

Lemma validate_subCategory_nil (categoryData : gmap string (list string)) (doc : Expense) :
  validate_subCategory categoryData doc = [] <->
  forall s, s ∈ subCategory doc ->
    s ∈ default [] (categoryData !! property_key (category doc)).
Proof.
  unfold validate_subCategory. rewrite <- subCategory_validator_spec.
  destruct (subCategory_validator categoryData doc (subCategory doc));
    split; congruence.
Qed.

(** Under a taxonomy with at least one category, validation passes exactly
    when the three strings are present, the category is a key of the taxonomy
    and the subcategories are listed under it. *)
Lemma validate_nil_iff (categoryData : gmap string (list string)) (doc : Expense) :
  categoryData <> ∅ ->
  (validate categoryData doc = [] <->
   present (amount doc) /\ present (category doc) /\ present (response doc) /\
   subcategories_valid categoryData doc).
Proof.
  intros Hne. unfold validate. rewrite !app_nil.
  rewrite validate_category_nil, validate_subCategory_nil.
  unfold validate_amount, validate_response.
  rewrite <- !checkRequired_spec.
  split.
  - intros (Ha & (Hc & Hk) & Hs & Hr).
    destruct (checkRequired (amount doc)); [|discriminate].
    destruct (checkRequired (response doc)); [|discriminate].
    repeat split; auto.
    destruct (Hk Hne) as (c & Hcat & Hin). unfold validCategories in Hin.
    apply elem_of_dom in Hin as [subs Hsubs].
    exists c, subs. repeat split; auto.
    intros s Hin. specialize (Hs s Hin). rewrite Hcat in Hs. cbn in Hs.
    rewrite Hsubs in Hs. exact Hs.
  - intros (Ha & Hc & Hr & (c & subs & Hcat & Hsubs & Hall)).
    rewrite Ha, Hr. repeat split; auto.
    + intros _. exists c. split; [exact Hcat|]. unfold validCategories.
      apply elem_of_dom. eauto.
    + intros s Hin. rewrite Hcat. cbn. rewrite Hsubs. cbn. auto.
Qed.

Section SchemaFacts.
Context `{Collaborators}.

Lemma save_invalid (categoryData : gmap string (list string)) (doc : Expense) (w : World) :
  validate categoryData doc <> [] ->
  save categoryData doc w = (Throw (ValidationError (validate categoryData doc)), w).
Proof.
  intros Hne. unfold save. destruct (validate categoryData doc); [contradiction|].
  reflexivity.
Qed.

Lemma save_valid (categoryData : gmap string (list string)) (doc : Expense) (w : World) :
  validate categoryData doc = [] ->
  save categoryData doc w =
    match insertOne doc (ext w) with
    | (Normal _, e) =>
        (Normal tt, mkWorld e (trace w) (collection w ++ [doc]) (vectorStore w))
    | (Throw error, e) => (Throw error, set_ext e w)
    end.
Proof.
  intros Hnil. unfold save. rewrite Hnil. unfold bind, external.
  destruct (insertOne doc (ext w)) as [[[]|error] e]; reflexivity.
Qed.

End SchemaFacts.

Lemma has_error_at_category (categoryData : gmap string (list string)) (doc : Expense) :
  categoryData <> ∅ ->
  ~ category_known categoryData doc ->
  has_error_at "category" (validate categoryData doc) = true.
Proof.
  intros Hne Hk. unfold validate, has_error_at. rewrite !existsb_app.
  assert (Hc : existsb (fun e => String.eqb (path e) "category")
                 (validate_category categoryData doc) = true).
  { unfold validate_category, category_known in *.
    destruct (category doc) as [c|]; [|reflexivity].
    destruct (is_empty c); [reflexivity|].
    apply enum_installed_spec in Hne. rewrite Hne. cbn [negb orb].
    destruct (bool_decide (c ∈ validCategories categoryData)) eqn:Hin; [|reflexivity].
    apply bool_decide_eq_true in Hin. exfalso. apply Hk. eauto. }
  rewrite Hc. rewrite orb_true_r. reflexivity.
Qed.

Lemma has_error_at_subCategory (categoryData : gmap string (list string)) (doc : Expense) :
  category_known categoryData doc ->
  ~ subcategories_valid categoryData doc ->
  has_error_at "subCategory" (validate categoryData doc) = true.
Proof.
  intros (c & Hcat & Hin) Hs. unfold validate, has_error_at. rewrite !existsb_app.
  assert (Hc : existsb (fun e => String.eqb (path e) "subCategory")
                 (validate_subCategory categoryData doc) = true).
  { unfold validate_subCategory.
    destruct (subCategory_validator categoryData doc (subCategory doc)) eqn:Hv;
      [|reflexivity].
    exfalso. apply Hs. unfold validCategories in Hin.
    apply elem_of_dom in Hin as [subs Hsubs].
    exists c, subs. repeat split; auto. intros s Hs'.
    apply subCategory_validator_spec with (s := s) in Hv; [|exact Hs'].
    rewrite Hcat in Hv. cbn in Hv. rewrite Hsubs in Hv. exact Hv. }
  rewrite Hc. cbn [orb]. rewrite !orb_true_r. reflexivity.
Qed.

(** C3 (as amended).  Under a taxonomy with at least one category, for a
    candidate whose amount, category and confirmation text are non-empty
    strings, and a database that acknowledges the insert, promotion succeeds
    iff the category is a key of the taxonomy and every subcategory is listed
    under it, and the record then joins the collection.  Otherwise promotion
    throws the validation error, which names the path [category] when the
    category is no key and the path [subCategory] when it is, and leaves the
    world as it was: nothing is persisted. *)
Theorem save_succeeds_iff_taxonomy `{Collaborators}
    (categoryData : gmap string (list string)) (doc : Expense) (w : World) (e : Env) :
  categoryData <> ∅ ->
  present (amount doc) -> present (category doc) -> present (response doc) ->
  insertOne doc (ext w) = (Normal tt, e) ->
  (fst (save categoryData doc w) = Normal tt <-> subcategories_valid categoryData doc) /\
  (subcategories_valid categoryData doc ->
     save categoryData doc w =
       (Normal tt, mkWorld e (trace w) (collection w ++ [doc]) (vectorStore w))) /\
  (~ subcategories_valid categoryData doc ->
     save categoryData doc w = (Throw (ValidationError (validate categoryData doc)), w) /\
     (~ category_known categoryData doc ->
        has_error_at "category" (validate categoryData doc) = true) /\
     (category_known categoryData doc ->
        has_error_at "subCategory" (validate categoryData doc) = true)).
Proof.
  intros Hne Ha Hc Hr Hins.
  assert (Hok : subcategories_valid categoryData doc ->
     save categoryData doc w =
       (Normal tt, mkWorld e (trace w) (collection w ++ [doc]) (vectorStore w))).
  { intros Hv. rewrite save_valid by (apply (validate_nil_iff _ _ Hne); auto).
    rewrite Hins. reflexivity. }
  assert (Hko : ~ subcategories_valid categoryData doc ->
     save categoryData doc w = (Throw (ValidationError (validate categoryData doc)), w)).
  { intros Hv. apply save_invalid. intros Hnil.
    apply (validate_nil_iff _ _ Hne) in Hnil. tauto. }
  split; [|split; [exact Hok|]].
  - split.
    + intros Hrun. destruct (validate categoryData doc) eqn:Hval.
      * apply (validate_nil_iff _ _ Hne) in Hval. tauto.
      * rewrite save_invalid in Hrun by (rewrite Hval; discriminate).
        discriminate.
    + intros Hv. rewrite (Hok Hv). reflexivity.
  - intros Hv. split; [exact (Hko Hv)|]. split.
    + apply has_error_at_category, Hne.
    + intros Hk. apply has_error_at_subCategory; assumption.
Qed.

Lemma readme_categories_nonempty : readme_categories <> ∅.
Proof.
  intros Heq. apply (f_equal (fun m => m !! "Food")) in Heq.
  vm_compute in Heq. discriminate.
Qed.

Lemma present_some (s : string) : is_empty s = false -> present (Some s).
Proof. intros Hs. exists s. split; [reflexivity|]. intros ->. discriminate. Qed.

Lemma save_succeeds_iff_taxonomy_witness :
  (fst (save readme_categories (lunch_doc ["Snacks"] (Some "Spent 500 on lunch")) quiet_world)
     = Normal tt <->
   subcategories_valid readme_categories (lunch_doc ["Snacks"] (Some "Spent 500 on lunch"))) /\
  (subcategories_valid readme_categories (lunch_doc ["Snacks"] (Some "Spent 500 on lunch")) ->
     save readme_categories (lunch_doc ["Snacks"] (Some "Spent 500 on lunch")) quiet_world =
       (Normal tt,
        mkWorld (ext quiet_world) (trace quiet_world)
          (collection quiet_world ++ [lunch_doc ["Snacks"] (Some "Spent 500 on lunch")])
          (vectorStore quiet_world))) /\
  (~ subcategories_valid readme_categories (lunch_doc ["Snacks"] (Some "Spent 500 on lunch")) ->
     save readme_categories (lunch_doc ["Snacks"] (Some "Spent 500 on lunch")) quiet_world =
       (Throw (ValidationError
                 (validate readme_categories
                    (lunch_doc ["Snacks"] (Some "Spent 500 on lunch")))), quiet_world) /\
     (~ category_known readme_categories (lunch_doc ["Snacks"] (Some "Spent 500 on lunch")) ->
        has_error_at "category"
          (validate readme_categories (lunch_doc ["Snacks"] (Some "Spent 500 on lunch")))
          = true) /\
     (category_known readme_categories (lunch_doc ["Snacks"] (Some "Spent 500 on lunch")) ->
        has_error_at "subCategory"
          (validate readme_categories (lunch_doc ["Snacks"] (Some "Spent 500 on lunch")))
          = true)).
Proof.
  apply (save_succeeds_iff_taxonomy readme_categories
           (lunch_doc ["Snacks"] (Some "Spent 500 on lunch")) quiet_world (ext quiet_world)).
  - exact readme_categories_nonempty.
  - apply present_some. reflexivity.
  - apply present_some. reflexivity.
  - apply present_some. reflexivity.
  - reflexivity.
Defined.

(** C3, as stated, fails in both directions.  A candidate whose category and
    subcategory are in the taxonomy is still rejected when its confirmation
    text is empty, or missing.  And under a taxonomy without any category,
    where the schema has no [enum] validator, a candidate is accepted and
    persisted although its category is no key. *)
Lemma save_rejects_empty_response :
  subcategories_valid readme_categories (lunch_doc ["Snacks"] (Some "")) /\
  save readme_categories (lunch_doc ["Snacks"] (Some "")) quiet_world =
    (Throw (ValidationError [required_error "response"]), quiet_world) /\
  subcategories_valid readme_categories (lunch_doc ["Snacks"] None) /\
  save readme_categories (lunch_doc ["Snacks"] None) quiet_world =
    (Throw (ValidationError [required_error "response"]), quiet_world) /\
  ~ category_known ∅ (lunch_doc [] (Some "Spent 500")) /\
  save ∅ (lunch_doc [] (Some "Spent 500")) quiet_world =
    (Normal tt,
     mkWorld (ext quiet_world) (trace quiet_world)
       (collection quiet_world ++ [lunch_doc [] (Some "Spent 500")])
       (vectorStore quiet_world)).
Proof.
  assert (Hvalid : forall response,
             subcategories_valid readme_categories (lunch_doc ["Snacks"] response)).
  { intros response. exists "Food", ["Groceries"; "Dining out"; "Snacks"].
    split; [reflexivity|]. split; [vm_compute; reflexivity|].
    intros s Hs. apply list_elem_of_In in Hs. apply list_elem_of_In.
    cbn in Hs |- *. tauto. }
  split; [apply Hvalid|]. split; [vm_compute; reflexivity|].
  split; [apply Hvalid|]. split; [vm_compute; reflexivity|].
  split; [|vm_compute; reflexivity].
  intros (c & _ & Hin). unfold validCategories in Hin.
  rewrite dom_empty_L in Hin. apply elem_of_empty in Hin. exact Hin.
Qed.

(** C9 (as amended).  Validation does not ask for a subcategory: a candidate
    with an empty subcategory list passes as soon as its amount, category and
    confirmation text are non-empty strings and its category is a key of the
    taxonomy, and it is then persisted. *)
Theorem save_accepts_empty_subCategory `{Collaborators}
    (categoryData : gmap string (list string)) (doc : Expense) (w : World) (e : Env) :
  subCategory doc = [] ->
  present (amount doc) -> present (category doc) -> present (response doc) ->
  category_known categoryData doc ->
  insertOne doc (ext w) = (Normal tt, e) ->
  validate categoryData doc = [] /\
  save categoryData doc w =
    (Normal tt, mkWorld e (trace w) (collection w ++ [doc]) (vectorStore w)).
Proof.
  intros Hsub Ha Hc Hr Hknown Hins.
  pose proof (category_known_nonempty categoryData doc Hknown) as Hne.
  destruct Hknown as (c & Hcat & Hin).
  assert (Hval : validate categoryData doc = []).
  { apply (validate_nil_iff _ _ Hne). repeat split; auto.
    unfold validCategories in Hin. apply elem_of_dom in Hin as [subs Hsubs].
    exists c, subs. repeat split; auto. rewrite Hsub. intros s Hs.
    apply elem_of_nil in Hs. contradiction. }
  split; [exact Hval|]. rewrite save_valid by exact Hval. rewrite Hins. reflexivity.
Qed.

Lemma save_accepts_empty_subCategory_witness :
  validate readme_categories (lunch_doc [] (Some "Spent 500")) = [] /\
  save readme_categories (lunch_doc [] (Some "Spent 500")) quiet_world =
    (Normal tt,
     mkWorld (ext quiet_world) (trace quiet_world)
       (collection quiet_world ++ [lunch_doc [] (Some "Spent 500")])
       (vectorStore quiet_world)).
Proof.
  apply (save_accepts_empty_subCategory readme_categories
           (lunch_doc [] (Some "Spent 500")) quiet_world (ext quiet_world)).
  - reflexivity.
  - apply present_some. reflexivity.
  - apply present_some. reflexivity.
  - apply present_some. reflexivity.
  - exists "Food". split; [reflexivity|].
    unfold validCategories. apply elem_of_dom. eexists. vm_compute. reflexivity.
  - reflexivity.
Defined.

(** C9, as stated, fails: when the model's answer has no [sub-category], the
    pipeline stores the expense with an empty subcategory list. *)
Lemma processUserInput_stores_empty_subCategory :
  validate readme_categories (lunch_doc [] (Some "Spent 500")) = [] /\
  collection (snd (processUserInput readme_categories "spent 500" bare_world))
    = [lunch_doc [] (Some "Spent 500")].
Proof. split; vm_compute; reflexivity. Qed.

(** ** The vector store service *)

Section VectorStoreFacts.
Context `{Collaborators}.

Lemma init_unfold (w : World) :
  init w =
  if existsSync_index (ext w) then
    match HNSWLib_load (ext w) with
    | (Normal store, e) =>
        (Normal tt,
         mkWorld e (trace w ++ [EvLoad; EvLog "Loaded existing vector store"])
           (collection w) (Some store))
    | (Throw error, e) =>
        (Throw error,
         mkWorld e
           (trace w ++
            [EvLoad; EvError ("Error initializing vector store: " +:+ message error)])
           (collection w) (vectorStore w))
    end
  else
    match HNSWLib_fromDocuments [dummyDoc] (ext w) with
    | (Normal store, e) =>
        match HNSWLib_save store e with
        | (Normal _, e') =>
            (Normal tt,
             mkWorld e'
               (trace w ++
                [EvFromDocuments [dummyDoc]; EvSave; EvLog "Created new vector store"])
               (collection w) (Some store))
        | (Throw error, e') =>
            (Throw error,
             mkWorld e'
               (trace w ++
                [EvFromDocuments [dummyDoc]; EvSave;
                 EvError ("Error initializing vector store: " +:+ message error)])
               (collection w) (Some store))
        end
    | (Throw error, e) =>
        (Throw error,
         mkWorld e
           (trace w ++
            [EvFromDocuments [dummyDoc];
             EvError ("Error initializing vector store: " +:+ message error)])
           (collection w) (vectorStore w))
    end.
Proof.
  unfold init, try_catch, bind, exists_index, emit, external, set_vectorStore,
    set_ext, throw.
  destruct (existsSync_index (ext w)); cbn.
  - destruct (HNSWLib_load (ext w)) as [[store|error] e]; cbn;
      rewrite <- ?app_assoc; reflexivity.
  - destruct (HNSWLib_fromDocuments [dummyDoc] (ext w)) as [[store|error] e]; cbn.
    + destruct (HNSWLib_save store e) as [[[]|error] e']; cbn;
        rewrite <- ?app_assoc; reflexivity.
    + rewrite <- ?app_assoc. reflexivity.
Qed.

Lemma similaritySearch_unfold (query : string) (k : option nat) (w : World) :
  similaritySearch query k w =
  match init_if_needed w with
  | (Throw error, w1) => (Throw error, w1)
  | (Normal _, w1) =>
      match vectorStore w1 with
      | None =>
          (Normal [],
           mkWorld (ext w1)
             (trace w1 ++
              [EvError ("Error during similarity search: " +:+
                        "Cannot read properties of null (reading 'similaritySearch')")])
             (collection w1) (vectorStore w1))
      | Some store =>
          match HNSWLib_similaritySearch store query (default 5%nat k) (ext w1) with
          | (Normal results, e) =>
              (Normal (List.filter not_initialization results),
               mkWorld e (trace w1 ++ [EvSearch query (default 5%nat k)])
                 (collection w1) (vectorStore w1))
          | (Throw error, e) =>
              (Normal [],
               mkWorld e
                 (trace w1 ++
                  [EvSearch query (default 5%nat k);
                   EvError ("Error during similarity search: " +:+ message error)])
                 (collection w1) (vectorStore w1))
          end
      end
  end.
Proof.
  unfold similaritySearch. unfold bind at 1.
  destruct (init_if_needed w) as [[[]|error] w1]; [|reflexivity].
  unfold try_catch, bind, get_vectorStore, emit, external, set_ext, throw, ret.
  destruct (vectorStore w1) as [store|] eqn:Hstore; cbn;
    [|rewrite ?Hstore; reflexivity].
  destruct (HNSWLib_similaritySearch store query (default 5%nat k) (ext w1))
    as [[results|error] e]; cbn; rewrite <- ?app_assoc, ?Hstore; reflexivity.
Qed.

Lemma init_if_needed_unfold (w : World) :
  init_if_needed w =
  match vectorStore w with
  | None => init w
  | Some _ => (Normal tt, w)
  end.
Proof.
  unfold init_if_needed, bind, get_vectorStore, ret.
  destruct (vectorStore w); reflexivity.
Qed.

(** A successful initialisation leaves an index attached. *)
Lemma init_attaches (w w1 : World) :
  init w = (Normal tt, w1) -> is_Some (vectorStore w1).
Proof.
  rewrite init_unfold. destruct (existsSync_index (ext w)).
  - destruct (HNSWLib_load (ext w)) as [[store|error] e]; intros [= <-]; cbn; eauto.
  - destruct (HNSWLib_fromDocuments [dummyDoc] (ext w)) as [[store|error] e];
      [|discriminate].
    destruct (HNSWLib_save store e) as [[[]|error] e']; intros [= <-]; cbn; eauto.
Qed.

Lemma filter_not_initialization (results : list Document) :
  Forall (fun doc => truthy (metadata_initialization doc) = false)
    (List.filter not_initialization results).
Proof.
  apply Forall_forall. intros doc Hdoc. apply list_elem_of_In, filter_In in Hdoc.
  destruct Hdoc as [_ Hnot]. unfold not_initialization in Hnot.
  apply negb_true_iff in Hnot. exact Hnot.
Qed.

End VectorStoreFacts.

(** C4.  Whatever the query and [k], no document returned by
    [similaritySearch] carries a truthy [initialization] flag; in particular
    the initialization document is never returned. *)
Theorem similaritySearch_hides_initialization `{Collaborators}
    (query : string) (k : option nat) (w w' : World) (docs : list Document) :
  similaritySearch query k w = (Normal docs, w') ->
  Forall (fun doc => truthy (metadata_initialization doc) = false) docs /\
  dummyDoc ∉ docs.
Proof.
  intros Hrun.
  assert (Hall : Forall (fun doc => truthy (metadata_initialization doc) = false) docs).
  { rewrite similaritySearch_unfold in Hrun.
    destruct (init_if_needed w) as [[[]|error] w1]; [|discriminate].
    destruct (vectorStore w1) as [store|].
    - destruct (HNSWLib_similaritySearch store query (default 5%nat k) (ext w1))
        as [[results|error] e]; injection Hrun as <- _.
      + apply filter_not_initialization.
      + constructor.
    - injection Hrun as <- _. constructor. }
  split; [exact Hall|].
  intros Hin. rewrite Forall_forall in Hall. apply Hall in Hin.
  vm_compute in Hin. discriminate.
Qed.

Lemma similaritySearch_hides_initialization_witness :
  Forall (fun doc => truthy (metadata_initialization doc) = false) [coffee_doc] /\
  dummyDoc ∉ [coffee_doc].
Proof.
  apply (similaritySearch_hides_initialization "food expenses" None indexed_world
           (mkWorld (ext indexed_world) [EvSearch "food expenses" 5]
              (collection indexed_world) (vectorStore indexed_world))).
  vm_compute. reflexivity.
Defined.

(** C5.  Once an index is attached, an error raised by the index's
    nearest-neighbour search is not propagated: [similaritySearch] reports it
    on the console and returns the empty list. *)
Theorem similaritySearch_degrades_to_empty `{Collaborators}
    (query : string) (k : option nat) (w w1 : World) (store : Handle)
    (error : Error) (e : Env) :
  init_if_needed w = (Normal tt, w1) ->
  vectorStore w1 = Some store ->
  HNSWLib_similaritySearch store query (default 5%nat k) (ext w1) = (Throw error, e) ->
  similaritySearch query k w =
    (Normal [],
     mkWorld e
       (trace w1 ++
        [EvSearch query (default 5%nat k);
         EvError ("Error during similarity search: " +:+ message error)])
       (collection w1) (vectorStore w1)).
Proof.
  intros Hinit Hstore Hsearch.
  rewrite similaritySearch_unfold, Hinit, Hstore, Hsearch. reflexivity.
Qed.

Lemma similaritySearch_degrades_to_empty_witness :
  similaritySearch "food expenses" None offline_world =
    (Normal [],
     mkWorld (ext offline_world)
       (trace offline_world ++
        [EvSearch "food expenses" (default 5%nat None);
         EvError ("Error during similarity search: " +:+ message embeddings_error)])
       (collection offline_world) (vectorStore offline_world)).
Proof.
  apply (similaritySearch_degrades_to_empty "food expenses" None offline_world
           offline_world [dummyDoc; coffee_doc] embeddings_error (ext offline_world)).
  - reflexivity.
  - reflexivity.
  - reflexivity.
Defined.

(** C10.  While no index is attached, an error raised by the lazy
    initialisation inside [similaritySearch] reaches the caller: the search
    throws that error, in the world the failed initialisation left, and no
    list is returned. *)
Theorem similaritySearch_propagates_init_error `{Collaborators}
    (query : string) (k : option nat) (w w1 : World) (error : Error) :
  vectorStore w = None ->
  init w = (Throw error, w1) ->
  similaritySearch query k w = (Throw error, w1).
Proof.
  intros Hnone Hinit.
  rewrite similaritySearch_unfold, init_if_needed_unfold, Hnone, Hinit. reflexivity.
Qed.

Lemma similaritySearch_propagates_init_error_witness :
  similaritySearch "food expenses" None cold_offline_world =
    (Throw embeddings_error,
     mkWorld (ext cold_offline_world)
       [EvFromDocuments [dummyDoc];
        EvError "Error initializing vector store: embeddings request failed"]
       [] None).
Proof.
  apply (similaritySearch_propagates_init_error "food expenses" None cold_offline_world).
  - reflexivity.
  - vm_compute. reflexivity.
Defined.

Lemma created_indexes_app (l1 l2 : list Event) :
  created_indexes (l1 ++ l2) = created_indexes l1 ++ created_indexes l2.
Proof. apply omap_app. Qed.

(** An index is created, from the initialization document alone, exactly
    when the marker file is missing. *)
Lemma init_creates_without_marker `{Collaborators} (w : World) :
  created_indexes (trace (snd (init w))) =
  created_indexes (trace w) ++ (if existsSync_index (ext w) then [] else [[dummyDoc]]).
Proof.
  rewrite init_unfold. destruct (existsSync_index (ext w)).
  - destruct (HNSWLib_load (ext w)) as [[store|error] e]; cbn [snd trace];
      rewrite created_indexes_app; reflexivity.
  - destruct (HNSWLib_fromDocuments [dummyDoc] (ext w)) as [[store|error] e].
    + destruct (HNSWLib_save store e) as [[[]|error] e']; cbn [snd trace];
        rewrite created_indexes_app; reflexivity.
    + cbn [snd trace]. rewrite created_indexes_app. reflexivity.
Qed.

(** C6 (as amended).  [init] creates an index, seeded with the
    initialization document alone, only when the marker file is missing, and
    it then saves it.  After a successful [init] an index is attached; when
    the marker file is then in place, a second [init] creates nothing: it
    loads the saved index again and attaches the handle that this load
    returns, or, when the load fails, throws its error and leaves the handle
    of the first call attached. *)
Theorem init_again_loads_saved_index `{Collaborators} (w w1 : World) :
  init w = (Normal tt, w1) ->
  existsSync_index (ext w1) = true ->
  is_Some (vectorStore w1) /\
  created_indexes (trace (snd (init w1))) = created_indexes (trace w1) /\
  (forall store e,
      HNSWLib_load (ext w1) = (Normal store, e) ->
      init w1 =
        (Normal tt,
         mkWorld e (trace w1 ++ [EvLoad; EvLog "Loaded existing vector store"])
           (collection w1) (Some store))) /\
  (forall error e,
      HNSWLib_load (ext w1) = (Throw error, e) ->
      init w1 =
        (Throw error,
         mkWorld e
           (trace w1 ++
            [EvLoad; EvError ("Error initializing vector store: " +:+ message error)])
           (collection w1) (vectorStore w1))) /\
  (forall w0, created_indexes (trace (snd (init w0))) =
     created_indexes (trace w0) ++
     (if existsSync_index (ext w0) then [] else [[dummyDoc]])) /\
  (forall w0 store e e',
      existsSync_index (ext w0) = false ->
      HNSWLib_fromDocuments [dummyDoc] (ext w0) = (Normal store, e) ->
      HNSWLib_save store e = (Normal tt, e') ->
      init w0 =
        (Normal tt,
         mkWorld e'
           (trace w0 ++
            [EvFromDocuments [dummyDoc]; EvSave; EvLog "Created new vector store"])
           (collection w0) (Some store))).
Proof.
  intros Hinit Hmarker.
  split; [exact (init_attaches w w1 Hinit)|].
  split; [rewrite init_creates_without_marker, Hmarker; apply app_nil_r|].
  split; [|split; [|split]].
  - intros store e Hload. rewrite init_unfold, Hmarker, Hload. reflexivity.
  - intros error e Hload. rewrite init_unfold, Hmarker, Hload. reflexivity.
  - intros w0. apply init_creates_without_marker.
  - intros w0 store e e' Hmissing Hcreate Hsave.
    rewrite init_unfold, Hmissing, Hcreate, Hsave. reflexivity.
Qed.

Lemma init_again_loads_saved_index_witness :
  is_Some (vectorStore (snd (init quiet_world))) /\
  created_indexes (trace (snd (init (snd (init quiet_world)))))
    = created_indexes (trace (snd (init quiet_world))) /\
  (forall store e,
      HNSWLib_load (ext (snd (init quiet_world))) = (Normal store, e) ->
      init (snd (init quiet_world)) =
        (Normal tt,
         mkWorld e
           (trace (snd (init quiet_world)) ++ [EvLoad; EvLog "Loaded existing vector store"])
           (collection (snd (init quiet_world))) (Some store))) /\
  (forall error e,
      HNSWLib_load (ext (snd (init quiet_world))) = (Throw error, e) ->
      init (snd (init quiet_world)) =
        (Throw error,
         mkWorld e
           (trace (snd (init quiet_world)) ++
            [EvLoad; EvError ("Error initializing vector store: " +:+ message error)])
           (collection (snd (init quiet_world))) (vectorStore (snd (init quiet_world))))) /\
  (forall w0, created_indexes (trace (snd (init w0))) =
     created_indexes (trace w0) ++
     (if existsSync_index (ext w0) then [] else [[dummyDoc]])) /\
  (forall w0 store e e',
      existsSync_index (ext w0) = false ->
      HNSWLib_fromDocuments [dummyDoc] (ext w0) = (Normal store, e) ->
      HNSWLib_save store e = (Normal tt, e') ->
      init w0 =
        (Normal tt,
         mkWorld e'
           (trace w0 ++
            [EvFromDocuments [dummyDoc]; EvSave; EvLog "Created new vector store"])
           (collection w0) (Some store))).
Proof.
  apply (@init_again_loads_saved_index Sim quiet_world (snd (init quiet_world))).
  - vm_compute. reflexivity.
  - vm_compute. reflexivity.
Defined.

(** C6, as stated, fails: the second [init] does not keep the handle of the
    first.  Where every load yields a new index object, two calls in a row
    both succeed, the second creates nothing, and the handle attached after
    the second call is another object than the one attached after the first. *)
Lemma init_twice_attaches_new_handle :
  fst (@init SimObjects objects_world) = Normal tt /\
  @vectorStore SimObjects (snd (@init SimObjects objects_world))
    = Some (0%nat, [dummyDoc]) /\
  fst (@init SimObjects (snd (@init SimObjects objects_world))) = Normal tt /\
  @vectorStore SimObjects (snd (@init SimObjects (snd (@init SimObjects objects_world))))
    = Some (1%nat, [dummyDoc]) /\
  created_indexes
    (@trace SimObjects (snd (@init SimObjects (snd (@init SimObjects objects_world)))))
    = [[dummyDoc]] /\
  @vectorStore SimObjects (snd (@init SimObjects (snd (@init SimObjects objects_world))))
    <> @vectorStore SimObjects (snd (@init SimObjects objects_world)).
Proof.
  assert (H1 : @vectorStore SimObjects (snd (@init SimObjects objects_world))
               = Some (0%nat, [dummyDoc])) by (vm_compute; reflexivity).
  assert (H2 : @vectorStore SimObjects
                 (snd (@init SimObjects (snd (@init SimObjects objects_world))))
               = Some (1%nat, [dummyDoc])) by (vm_compute; reflexivity).
  split; [vm_compute; reflexivity|]. split; [exact H1|].
  split; [vm_compute; reflexivity|]. split; [exact H2|].
  split; [vm_compute; reflexivity|].
  rewrite H1, H2. discriminate.
Qed.

Example init_twice_run :
  vectorStore (snd (init quiet_world)) = Some [dummyDoc] /\
  vectorStore (snd (init (snd (init quiet_world)))) = Some [dummyDoc] /\
  trace (snd (init (snd (init quiet_world)))) =
    [EvFromDocuments [dummyDoc]; EvSave; EvLog "Created new vector store";
     EvLoad; EvLog "Loaded existing vector store"].
Proof. vm_compute. auto. Qed.

(** ** The intent dispatch *)

(** C8 (as amended).  [processUserInput] lower-cases and then trims the
    model's answer and dispatches on the result: [add] runs the add case,
    [retrieve] runs the retrieve case, and for every other word it does
    nothing at all: it completes normally in the world the classification
    left, with no error raised or logged. *)
Theorem processUserInput_dispatch `{Collaborators}
    (categoryData : gmap string (list string)) (input text : string) (w w1 : World) :
  createTracedChain_call intentChain [("text", input)] w = (Normal text, w1) ->
  (trim (toLowerCase text) = "add" ->
     processUserInput categoryData input w =
       try_catch (add_expense_case categoryData input) report_error w1) /\
  (trim (toLowerCase text) = "retrieve" ->
     processUserInput categoryData input w =
       try_catch (retrieve_case input) report_error w1) /\
  (trim (toLowerCase text) <> "add" -> trim (toLowerCase text) <> "retrieve" ->
     processUserInput categoryData input w = (Normal tt, w1)).
Proof.
  intros Hcall.
  assert (Hrun : processUserInput categoryData input w =
    try_catch
      (if String.eqb (trim (toLowerCase text)) "add"
       then add_expense_case categoryData input
       else if String.eqb (trim (toLowerCase text)) "retrieve"
            then retrieve_case input
            else ret tt)
      report_error w1).
  { unfold processUserInput, try_catch, report_error, bind.
    rewrite Hcall. reflexivity. }
  rewrite Hrun. repeat split.
  - intros ->. reflexivity.
  - intros ->. reflexivity.
  - intros Hadd Hret.
    apply String.eqb_neq in Hadd, Hret. rewrite Hadd, Hret. reflexivity.
Qed.

Lemma processUserInput_dispatch_witness :
  (trim (toLowerCase "Delete") = "add" ->
     processUserInput readme_categories "delete my lunch" puzzled_world =
       try_catch (add_expense_case readme_categories "delete my lunch") report_error
         (mkWorld (mkSimEnv [] 0 None false) [EvAttempt 1] [] None)) /\
  (trim (toLowerCase "Delete") = "retrieve" ->
     processUserInput readme_categories "delete my lunch" puzzled_world =
       try_catch (retrieve_case "delete my lunch") report_error
         (mkWorld (mkSimEnv [] 0 None false) [EvAttempt 1] [] None)) /\
  (trim (toLowerCase "Delete") <> "add" -> trim (toLowerCase "Delete") <> "retrieve" ->
     processUserInput readme_categories "delete my lunch" puzzled_world =
       (Normal tt, mkWorld (mkSimEnv [] 0 None false) [EvAttempt 1] [] None)).
Proof.
  apply (processUserInput_dispatch readme_categories "delete my lunch" "Delete"
           puzzled_world).
  vm_compute. reflexivity.
Defined.

(** C8, as stated, fails: an answer that is neither [add] nor [retrieve]
    raises nothing; the call completes normally and logs no error. *)
Lemma processUserInput_ignores_unknown_intent :
  processUserInput readme_categories "delete my lunch" puzzled_world =
    (Normal tt, mkWorld (mkSimEnv [] 0 None false) [EvAttempt 1] [] None).
Proof. vm_compute. reflexivity. Qed.

Example processUserInput_normalises_intent :
  collection (snd (processUserInput readme_categories "spent 500" bare_world))
    = [lunch_doc [] (Some "Spent 500")] /\
  trim (toLowerCase " Add ") = "add".
Proof. split; vm_compute; reflexivity. Qed.

(** The earlier main loop does not fail on an unknown intent either: every
    intent other than [add] is handled as a retrieval. *)
Lemma main_turn_defaults_to_retrieve `{Collaborators}
    (categoryData : gmap string (list string)) (userInput text : string)
    (parsed : IntentData) (w : World) (e : Env) :
  chain_call intentChain [("text", userInput)] (ext w) = (Normal text, e) ->
  JSON_parse_intent text = Normal parsed ->
  data_intent parsed <> Some "add" ->
  main_turn categoryData userInput w =
    try_catch
      (do! handleRetrieveExpense userInput in log "-------------------")
      (fun error => emit (EvError ("Error: " +:+ message error)))
      (mkWorld e
         (trace w ++
          [EvLog ("🤖 Detected intent: " +:+ interpolate (data_intent parsed) +:+
                  " (confidence: " +:+ data_confidence parsed +:+ "%)")])
         (collection w) (vectorStore w)).
Proof.
  intros Hcall Hparse Hintent.
  unfold main_turn, try_catch. unfold bind at 1. unfold chain_text, external.
  rewrite Hcall. unfold bind at 1. unfold lift. rewrite Hparse.
  unfold bind at 1. unfold log at 1, emit at 1. cbn [set_ext ext trace collection vectorStore].
  rewrite bool_decide_eq_false_2 by exact Hintent. reflexivity.
Qed.

Example main_turn_unknown_intent :
  trace (snd (main_turn readme_categories "delete my lunch" puzzled_loop_world)) =
    [EvLog "🤖 Detected intent: delete (confidence: 80.0%)";
     EvLog "🔍 Searching expenses...";
     EvSearch "delete my lunch" 5;
     EvLog (new_line +:+ "📊 Summary:");
     EvLog "You spent 120 on coffee.";
     EvLog (new_line +:+ "📝 Relevant Expenses:");
     EvLog "1. [FOOD] Expense of 120 for coffee";
     EvLog "-------------------"].
Proof. vm_compute. reflexivity. Qed.

(** * Further properties *)

(** ** The retry wrapper, for an arbitrary operation *)

Section RetryRunFacts.
Context `{Collaborators}.

(** Every run of the loop: some number [j] of rate-limited attempts that are
    retried, and then the attempt whose outcome ends the loop. *)
Lemma withRetry_loop_run {A} (operation : Env -> Completion A * Env) (maxRetries : nat) :
  forall (remaining attempt : nat) (w : World),
    (1 <= remaining)%nat ->
    (attempt + remaining = maxRetries + 1)%nat ->
    exists j,
      (j < remaining)%nat /\
      (forall i, (i < j)%nat -> exists error,
          fst (operation (env_after operation attempt (ext w) i)) = Throw error /\
          signals_rate_limit error = true) /\
      withRetry_loop operation maxRetries remaining attempt w =
        (returned (fst (operation (env_after operation attempt (ext w) j))),
         mkWorld (snd (operation (env_after operation attempt (ext w) j)))
           (trace w ++ retry_events attempt j) (collection w) (vectorStore w)) /\
      (forall error,
          fst (operation (env_after operation attempt (ext w) j)) = Throw error ->
          signals_rate_limit error = false \/ (attempt + j = maxRetries)%nat).
Proof.
  induction remaining as [|remaining IH]; intros attempt w Hrem Hsum; [lia|].
  rewrite withRetry_loop_unfold. cbv zeta.
  destruct (operation (ext w)) as [[v|error] e] eqn:Hop.
  - exists 0%nat. cbn [env_after retry_events]. rewrite Hop. cbn [fst snd returned].
    repeat split; [lia | intros i Hi; lia | discriminate].
  - destruct (signals_rate_limit error) eqn:Hsig; cbn [andb].
    + destruct (Nat.ltb attempt maxRetries) eqn:Hlt.
      * apply Nat.ltb_lt in Hlt.
        destruct (IH (S attempt)
                    (mkWorld (elapse (backoff_delay attempt) e)
                       ((trace w ++ [EvAttempt attempt]) ++
                        [EvLog (retry_notice (backoff_delay attempt));
                         EvSleep (backoff_delay attempt)])
                       (collection w) (vectorStore w)))
          as (j & Hj & Hfail & Hrun & Hlast); [lia|lia|].
        cbn [ext trace collection vectorStore] in Hfail, Hrun, Hlast.
        exists (S j). cbn [env_after retry_events]. rewrite Hop. cbn [snd].
        split; [lia|]. split; [|split].
        -- intros [|i] Hi.
           ++ exists error. cbn [env_after]. rewrite Hop. auto.
           ++ cbn [env_after]. rewrite Hop. cbn [snd]. apply Hfail. lia.
        -- rewrite Hrun. rewrite <- !app_assoc. reflexivity.
        -- intros err Herr. destruct (Hlast err Herr) as [Hs | Hs]; [auto|right; lia].
      * apply Nat.ltb_ge in Hlt.
        exists 0%nat. cbn [env_after retry_events]. rewrite Hop. cbn [fst snd returned].
        repeat split; [lia | intros i Hi; lia |].
        intros err [= <-]. right. lia.
    + exists 0%nat. cbn [env_after retry_events]. rewrite Hop. cbn [fst snd returned].
      repeat split; [lia | intros i Hi; lia |].
      intros err [= <-]. auto.
Qed.

(** The same for [withRetry], in terms of the attempt number [k = j + 1]. *)
Lemma withRetry_run {A} (operation : Env -> Completion A * Env)
    (maxRetries : option nat) (w : World) :
  (1 <= default 3 maxRetries)%nat ->
  exists k,
    (1 <= k <= default 3 maxRetries)%nat /\
    (forall i, (1 <= i < k)%nat -> exists error,
        attempt_outcome operation (ext w) i = Throw error /\
        signals_rate_limit error = true) /\
    withRetry operation maxRetries w =
      (returned (attempt_outcome operation (ext w) k),
       mkWorld (snd (operation (env_after operation 1 (ext w) (k - 1))))
         (trace w ++ retry_events 1 (k - 1)) (collection w) (vectorStore w)) /\
    (forall error, attempt_outcome operation (ext w) k = Throw error ->
        signals_rate_limit error = false \/ k = default 3%nat maxRetries).
Proof.
  intros Hmax. unfold withRetry, attempt_outcome.
  destruct (withRetry_loop_run operation (default 3%nat maxRetries)
              (default 3%nat maxRetries) 1 w Hmax ltac:(lia))
    as (j & Hj & Hfail & Hrun & Hlast).
  exists (S j). replace (S j - 1)%nat with j by lia.
  split; [lia|]. split; [|split; [exact Hrun|]].
  - intros i Hi. replace i with (S (i - 1)) at 1 by lia.
    replace (S (i - 1) - 1)%nat with (i - 1)%nat by lia. apply Hfail. lia.
  - intros error Herr. destruct (Hlast error Herr) as [Hs|Hs]; [auto|right; lia].
Qed.

Lemma sum_backoff_bound (attempt j : nat) :
  sum_list (map backoff_delay (seq attempt j)) <= 60000 * Z.of_nat j.
Proof.
  revert attempt; induction j as [|j IH]; intros attempt; [cbn; lia|].
  cbn [seq map sum_list]. specialize (IH (S attempt)).
  pose proof (backoff_delay_cap attempt). lia.
Qed.

End RetryRunFacts.

(** X1.  Whatever the operation does, [withRetry] calls it at least once and
    at most [maxRetries] times, numbered 1, 2, ... in order; it returns or
    throws what the last of these attempts returned or threw; it sleeps once
    after every attempt but the last, for the back-off delay of that attempt,
    so for at most 60 s times [maxRetries - 1] in all; and it touches neither
    the collection nor the attached index. *)
Theorem withRetry_attempts_bounded `{Collaborators} {A}
    (operation : Env -> Completion A * Env) (maxRetries : option nat) (w : World) :
  (1 <= default 3 maxRetries)%nat ->
  exists k events,
    (1 <= k <= default 3 maxRetries)%nat /\
    fst (withRetry operation maxRetries w) = returned (attempt_outcome operation (ext w) k) /\
    trace (snd (withRetry operation maxRetries w)) = trace w ++ events /\
    attempts_of events = seq 1 k /\
    sleeps_of events = map backoff_delay (seq 1 (k - 1)) /\
    sum_list (sleeps_of events) <= 60000 * (Z.of_nat (default 3%nat maxRetries) - 1) /\
    collection (snd (withRetry operation maxRetries w)) = collection w /\
    vectorStore (snd (withRetry operation maxRetries w)) = vectorStore w.
Proof.
  intros Hmax.
  destruct (withRetry_run operation maxRetries w Hmax) as (k & Hk & _ & Hrun & _).
  exists k, (retry_events 1 (k - 1)). rewrite Hrun. cbn [fst snd trace collection vectorStore].
  rewrite attempts_of_retry_events, sleeps_of_retry_events.
  replace (S (k - 1)) with k by lia.
  repeat split; try lia.
  pose proof (sum_backoff_bound 1 (k - 1)). lia.
Qed.

Lemma withRetry_attempts_bounded_witness :
  exists k events,
    (1 <= k <= default 3 None)%nat /\
    fst (withRetry (chain_call intentChain []) None busy_world)
      = returned (attempt_outcome (chain_call intentChain []) (ext busy_world) k) /\
    trace (snd (withRetry (chain_call intentChain []) None busy_world))
      = trace busy_world ++ events /\
    attempts_of events = seq 1 k /\
    sleeps_of events = map backoff_delay (seq 1 (k - 1)) /\
    sum_list (sleeps_of events) <= 60000 * (Z.of_nat (default 3%nat None) - 1) /\
    collection (snd (withRetry (chain_call intentChain []) None busy_world))
      = collection busy_world /\
    vectorStore (snd (withRetry (chain_call intentChain []) None busy_world))
      = vectorStore busy_world.
Proof.
  apply (withRetry_attempts_bounded (chain_call intentChain []) None busy_world).
  cbn. lia.
Defined.


Section RetryOutcomes.
Context `{Collaborators}.

(** The attempt that ends the run is the first one that is not a
    rate-limited failure with attempts to spare. *)
Lemma withRetry_run_at {A} (operation : Env -> Completion A * Env)
    (maxRetries : option nat) (w : World) (k : nat) :
  (1 <= k <= default 3 maxRetries)%nat ->
  (forall i, (1 <= i < k)%nat -> exists error,
      attempt_outcome operation (ext w) i = Throw error /\
      signals_rate_limit error = true) ->
  (forall error, attempt_outcome operation (ext w) k = Throw error ->
      signals_rate_limit error = false \/ k = default 3%nat maxRetries) ->
  withRetry operation maxRetries w =
    (returned (attempt_outcome operation (ext w) k),
     mkWorld (snd (operation (env_after operation 1 (ext w) (k - 1))))
       (trace w ++ retry_events 1 (k - 1)) (collection w) (vectorStore w)).
Proof.
  intros Hk Hfail Hlast.
  destruct (withRetry_run operation maxRetries w ltac:(lia))
    as (k' & Hk' & Hfail' & Hrun & Hlast').
  assert (k' = k) as ->; [|exact Hrun].
  destruct (Nat.lt_trichotomy k' k) as [Hlt | [Heq | Hgt]]; [|exact Heq|].
  - destruct (Hfail k' ltac:(lia)) as (error & Hout & Hsig).
    destruct (Hlast' error Hout) as [Hs | Hs]; [congruence|lia].
  - destruct (Hfail' k ltac:(lia)) as (error & Hout & Hsig).
    destruct (Hlast error Hout) as [Hs | Hs]; [congruence|lia].
Qed.

(** A traced chain call: one to three attempts of the chain. *)
Lemma createTracedChain_call_run (chain : Chain) (params : list (string * string))
    (w : World) :
  exists k,
    (1 <= k <= 3)%nat /\
    createTracedChain_call chain params w =
      (attempt_outcome (chain_call chain params) (ext w) k,
       mkWorld (snd (chain_call chain params
                       (env_after (chain_call chain params) 1 (ext w) (k - 1))))
         (trace w ++ retry_events 1 (k - 1)) (collection w) (vectorStore w)).
Proof.
  destruct (withRetry_run (chain_call chain params) None w ltac:(cbn; lia))
    as (k & Hk & _ & Hrun & _).
  exists k. split; [exact Hk|].
  unfold createTracedChain_call, bind. rewrite Hrun.
  destruct (attempt_outcome (chain_call chain params) (ext w) k); reflexivity.
Qed.

End RetryOutcomes.

(** X3.  When every one of the [maxRetries] attempts fails with a rate-limit
    error, [withRetry] throws the error of the last attempt itself, after
    [maxRetries] attempts and [maxRetries - 1] sleeps: it does not sleep
    after the last failure. *)
Theorem withRetry_exhausts `{Collaborators} {A}
    (operation : Env -> Completion A * Env) (maxRetries : option nat) (w : World) :
  (1 <= default 3 maxRetries)%nat ->
  (forall i, (1 <= i <= default 3 maxRetries)%nat -> exists error,
      attempt_outcome operation (ext w) i = Throw error /\
      signals_rate_limit error = true) ->
  exists error events,
    attempt_outcome operation (ext w) (default 3%nat maxRetries) = Throw error /\
    fst (withRetry operation maxRetries w) = Throw error /\
    trace (snd (withRetry operation maxRetries w)) = trace w ++ events /\
    attempts_of events = seq 1 (default 3%nat maxRetries) /\
    sleeps_of events = map backoff_delay (seq 1 (default 3%nat maxRetries - 1)).
Proof.
  intros Hmax Hall.
  destruct (Hall (default 3%nat maxRetries) ltac:(lia)) as (error & Hout & Hsig).
  exists error, (retry_events 1 (default 3%nat maxRetries - 1)).
  rewrite (withRetry_run_at operation maxRetries w (default 3%nat maxRetries));
    [|lia|intros i Hi; apply Hall; lia|auto].
  rewrite Hout. cbn [fst snd trace returned].
  rewrite attempts_of_retry_events, sleeps_of_retry_events.
  replace (S (default 3%nat maxRetries - 1)) with (default 3%nat maxRetries) by lia.
  auto.
Qed.

Lemma withRetry_exhausts_witness :
  exists error events,
    attempt_outcome (chain_call intentChain []) (ext throttled_world) (default 3%nat None)
      = Throw error /\
    fst (withRetry (chain_call intentChain []) None throttled_world) = Throw error /\
    trace (snd (withRetry (chain_call intentChain []) None throttled_world))
      = trace throttled_world ++ events /\
    attempts_of events = seq 1 (default 3%nat None) /\
    sleeps_of events = map backoff_delay (seq 1 (default 3%nat None - 1)).
Proof.
  apply (withRetry_exhausts (chain_call intentChain []) None throttled_world).
  - cbn. lia.
  - intros i Hi. cbn in Hi.
    assert (i = 1 \/ i = 2 \/ i = 3)%nat as [-> | [-> | ->]] by lia;
      (eexists; split; [vm_compute; reflexivity | vm_compute; reflexivity]).
Defined.

(** X4.  An error that does not signal a rate limit ends the run at whatever
    attempt it occurs: after rate-limited failures on attempts 1..k-1, such an
    error on attempt k is thrown at once, with no sleep after it and no
    further attempt. *)
Theorem withRetry_stops_at_other_error `{Collaborators} {A}
    (operation : Env -> Completion A * Env) (maxRetries : option nat) (w : World)
    (k : nat) (error : Error) :
  (1 <= k <= default 3 maxRetries)%nat ->
  (forall i, (1 <= i < k)%nat -> exists err,
      attempt_outcome operation (ext w) i = Throw err /\
      signals_rate_limit err = true) ->
  attempt_outcome operation (ext w) k = Throw error ->
  signals_rate_limit error = false ->
  exists events,
    fst (withRetry operation maxRetries w) = Throw error /\
    trace (snd (withRetry operation maxRetries w)) = trace w ++ events /\
    attempts_of events = seq 1 k /\
    sleeps_of events = map backoff_delay (seq 1 (k - 1)).
Proof.
  intros Hk Hfail Hout Hsig.
  exists (retry_events 1 (k - 1)).
  rewrite (withRetry_run_at operation maxRetries w k); [|exact Hk|exact Hfail|].
  - rewrite Hout. cbn [fst snd trace returned].
    rewrite attempts_of_retry_events, sleeps_of_retry_events.
    replace (S (k - 1)) with k by lia. auto.
  - intros err Herr. rewrite Hout in Herr. injection Herr as <-. auto.
Qed.

Lemma withRetry_stops_at_other_error_witness :
  exists events,
    fst (withRetry (chain_call intentChain []) None refused_later_world)
      = Throw (mkError "401: incorrect API key") /\
    trace (snd (withRetry (chain_call intentChain []) None refused_later_world))
      = trace refused_later_world ++ events /\
    attempts_of events = seq 1 2 /\
    sleeps_of events = map backoff_delay (seq 1 (2 - 1)).
Proof.
  apply (withRetry_stops_at_other_error (chain_call intentChain []) None
           refused_later_world 2 (mkError "401: incorrect API key")).
  - cbn. lia.
  - intros i Hi. assert (i = 1)%nat as -> by lia.
    eexists; split; [vm_compute; reflexivity | vm_compute; reflexivity].
  - vm_compute. reflexivity.
  - vm_compute. reflexivity.
Defined.

(** X5.  A traced chain call makes one, two or three calls of the chain and
    yields exactly what the last of them returned or threw; it sleeps at most
    twice, 2 s and then 4 s, so never more than 6 s in all, and leaves the
    collection and the attached index alone. *)
Theorem createTracedChain_call_outcome `{Collaborators}
    (chain : Chain) (params : list (string * string)) (w : World) :
  exists k events,
    (1 <= k <= 3)%nat /\
    fst (createTracedChain_call chain params w)
      = attempt_outcome (chain_call chain params) (ext w) k /\
    trace (snd (createTracedChain_call chain params w)) = trace w ++ events /\
    attempts_of events = seq 1 k /\
    sleeps_of events = firstn (k - 1) [2000; 4000] /\
    sum_list (sleeps_of events) <= 6000 /\
    collection (snd (createTracedChain_call chain params w)) = collection w /\
    vectorStore (snd (createTracedChain_call chain params w)) = vectorStore w.
Proof.
  destruct (createTracedChain_call_run chain params w) as (k & Hk & Hrun).
  exists k, (retry_events 1 (k - 1)). rewrite Hrun.
  cbn [fst snd trace collection vectorStore].
  rewrite attempts_of_retry_events, sleeps_of_retry_events.
  replace (S (k - 1)) with k by lia.
  assert (k = 1 \/ k = 2 \/ k = 3)%nat as [-> | [-> | ->]] by lia;
    repeat split; try lia; vm_compute; congruence.
Qed.

(** ** The category taxonomy, line by line

    [categories] is modelled as a finite map; a category line whose name is
    the string [__proto__], which JavaScript does not store as a key, is
    outside the model. *)

Lemma split_lines_app (a b : string) :
  split_lines (a +:+ new_line +:+ b) = split_lines a ++ split_lines b.
Proof.
  induction a as [|c a IH].
  - reflexivity.
  - change (String c a +:+ new_line +:+ b) with (String c (a +:+ new_line +:+ b)).
    cbn [split_lines]. rewrite IH.
    destruct (Ascii.eqb c LF); [reflexivity|].
    destruct (split_lines a) as [|l ls] eqn:Ha; [|reflexivity].
    exfalso. exact (split_lines_not_nil a Ha).
Qed.

Lemma split_lines_single (line : string) :
  has_line_feed line = false -> split_lines line = [line].
Proof.
  induction line as [|c line IH]; intros Hlf; [reflexivity|].
  rewrite has_line_feed_cons in Hlf. apply orb_false_iff in Hlf as [Hc Hl].
  cbn [split_lines]. rewrite Hc, (IH Hl). reflexivity.
Qed.

Lemma split_lines_join (lines : list string) :
  lines <> [] ->
  Forall (fun line => has_line_feed line = false) lines ->
  split_lines (join new_line lines) = lines.
Proof.
  induction lines as [|line lines IH]; intros Hne Hall; [contradiction|].
  apply Forall_cons in Hall as [Hline Hall].
  destruct lines as [|line' lines].
  - cbn [join]. apply split_lines_single, Hline.
  - change (join new_line (line :: line' :: lines))
      with (line +:+ new_line +:+ join new_line (line' :: lines)).
    rewrite split_lines_first by exact Hline.
    rewrite IH; [reflexivity|discriminate|exact Hall].
Qed.

Lemma parse_lines_app (st : gmap string (list string) * option string)
    (l1 l2 : list string) :
  parse_lines st (l1 ++ l2) =
  match parse_lines st l1 with
  | Normal st' => parse_lines st' l2
  | Throw e => Throw e
  end.
Proof.
  revert st; induction l1 as [|line l1 IH]; intros st; cbn; [reflexivity|].
  destruct (parse_line st line); [apply IH|reflexivity].
Qed.


Lemma parse_line_category (st : gmap string (list string) * option string)
    (line m : string) :
  is_skipped line = false -> categoryMatch line = Some m ->
  parse_line st line = Normal (<[trim m := []]> (fst st), Some (trim m)).
Proof.
  intros Hskip Hm. destruct st as [categories cur]. unfold parse_line.
  unfold is_skipped in Hskip. rewrite Hskip, Hm. reflexivity.
Qed.

Lemma parse_line_bullet (categories : gmap string (list string))
    (cur line : string) (subs : list string) :
  bullet_line line -> is_empty cur = false -> categories !! cur = Some subs ->
  parse_line (categories, Some cur) line =
    Normal (<[cur := subs ++ [bullet_text line]]> categories, Some cur).
Proof.
  intros (_ & Hskip & Hb) Hcur Hsubs. unfold parse_line.
  unfold is_skipped in Hskip. rewrite Hskip, (bullet_is_no_category line Hb).
  rewrite Hcur, Hb, Hsubs. reflexivity.
Qed.

(** A run of bullets under an open category is appended to it in order. *)
Lemma parse_lines_bullets (cur : string) (bullets : list string) :
  is_empty cur = false ->
  Forall bullet_line bullets ->
  forall (categories : gmap string (list string)) (subs : list string),
    categories !! cur = Some subs ->
    parse_lines (categories, Some cur) bullets =
      Normal (<[cur := subs ++ map bullet_text bullets]> categories, Some cur).
Proof.
  intros Hcur. induction bullets as [|b bullets IH]; intros Hall categories subs Hsubs.
  - cbn. rewrite app_nil_r, insert_id by exact Hsubs. reflexivity.
  - apply Forall_cons in Hall as [Hb Hall]. cbn [parse_lines].
    rewrite (parse_line_bullet categories cur b subs Hb Hcur Hsubs).
    rewrite (IH Hall _ (subs ++ [bullet_text b])) by apply lookup_insert_eq.
    rewrite insert_insert_eq. cbn [map]. rewrite <- app_assoc. reflexivity.
Qed.

(** X6.  A category line followed by bullet lines, after any text whatever,
    yields that category with exactly the texts of those bullets, in order:
    what the lines before had collected under the same name is dropped (the
    last definition wins), and with no bullet the category is empty.  The
    name must not be empty, and it must not be [__proto__], which a
    JavaScript object does not keep as a key. *)
Theorem parseCategoryData_block (data heading m : string) (bullets : list string) :
  has_line_feed heading = false ->
  is_skipped heading = false ->
  categoryMatch heading = Some m ->
  is_empty (trim m) = false ->
  trim m <> "__proto__" ->
  Forall bullet_line bullets ->
  exists categories,
    parseCategoryData (data +:+ new_line +:+ join new_line (heading :: bullets))
      = Normal categories /\
    categories !! trim m = Some (map bullet_text bullets).
Proof.
  intros Hlf Hskip Hm Hname _ Hbullets.
  unfold parseCategoryData. rewrite split_lines_app.
  rewrite split_lines_join;
    [|discriminate|constructor; [exact Hlf|]].
  2: { eapply Forall_impl; [exact Hbullets|]. intros b (Hb & _). exact Hb. }
  rewrite parse_lines_app.
  destruct (parse_lines_total (split_lines data) (∅, None)) as ([cats cur] & ->).
  { intros c [=]. }
  cbn [parse_lines]. rewrite (parse_line_category _ heading m Hskip Hm). cbn [fst].
  rewrite (parse_lines_bullets (trim m) bullets Hname Hbullets _ [])
    by apply lookup_insert_eq.
  eexists. split; [reflexivity|]. cbn [app]. apply lookup_insert_eq.
Qed.

Lemma parseCategoryData_block_witness :
  exists categories,
    parseCategoryData
      (repeated_category_data +:+ new_line +:+
       join new_line ["1. Food"; "  - Dining out"; "- Groceries "])
      = Normal categories /\
    categories !! trim "Food" = Some (map bullet_text ["  - Dining out"; "- Groceries "]).
Proof.
  apply (parseCategoryData_block repeated_category_data "1. Food" "Food"
           ["  - Dining out"; "- Groceries "]).
  - reflexivity.
  - reflexivity.
  - reflexivity.
  - reflexivity.
  - vm_compute. discriminate.
  - repeat constructor.
Defined.



Lemma trimEnd_idem (s : string) : trimEnd (trimEnd s) = trimEnd s.
Proof.
  induction s as [|c s IH]; [reflexivity|]. cbn [trimEnd].
  destruct (is_white_space c && is_empty (trimEnd s)) eqn:Hc; [reflexivity|].
  cbn [trimEnd]. rewrite IH, Hc. reflexivity.
Qed.

Lemma trimStart_trimEnd (s : string) :
  trimStart (trimEnd (trimStart s)) = trimEnd (trimStart s).
Proof.
  induction s as [|c s IH]; [reflexivity|]. cbn [trimStart].
  destruct (is_white_space c) eqn:Hc; [exact IH|].
  cbn [trimEnd]. rewrite Hc. cbn [andb trimStart]. rewrite Hc. reflexivity.
Qed.

(** [trim] leaves a trimmed string as it is. *)
Lemma trim_idem (s : string) : trim (trim s) = trim s.
Proof. unfold trim. rewrite trimStart_trimEnd. apply trimEnd_idem. Qed.

Lemma parse_line_taxonomy_from (lines : list string)
    (st st' : gmap string (list string) * option string) (line : string) :
  line ∈ lines ->
  parse_line st line = Normal st' ->
  taxonomy_from lines (fst st) -> taxonomy_from lines (fst st').
Proof.
  intros Hin Hstep Hinv. destruct st as [categories cur]. unfold parse_line in Hstep.
  destruct (is_empty (trim line) || includes "Expense Categories:" line);
    [injection Hstep as <-; exact Hinv|].
  destruct (categoryMatch line) as [m|] eqn:Hm.
  - injection Hstep as <-. cbn [fst] in *. intros name subs Hlook.
    destruct (decide (name = trim m)) as [->|Hne].
    + rewrite lookup_insert_eq in Hlook. injection Hlook as <-. split.
      * exists line. split; [exact Hin|]. exists m. auto.
      * intros sub Hsub. apply elem_of_nil in Hsub. contradiction.
    + rewrite lookup_insert_ne in Hlook by congruence. exact (Hinv name subs Hlook).
  - destruct cur as [cur|]; [|injection Hstep as <-; exact Hinv].
    destruct (negb (is_empty cur) && startsWith "-" (trim line)) eqn:Hb;
      [|injection Hstep as <-; exact Hinv].
    apply andb_true_iff in Hb as [_ Hb].
    destruct (categories !! cur) as [old|] eqn:Hold; [|discriminate].
    injection Hstep as <-. cbn [fst] in *. intros name subs Hlook.
    destruct (decide (name = cur)) as [->|Hne].
    + rewrite lookup_insert_eq in Hlook. injection Hlook as <-.
      destruct (Hinv cur old Hold) as [Hopen Hsubs]. split; [exact Hopen|].
      intros sub Hsub. apply elem_of_app in Hsub as [Hsub|Hsub]; [exact (Hsubs sub Hsub)|].
      apply list_elem_of_singleton in Hsub as ->.
      exists line. split; [exact Hin|]. split; [exact Hb|reflexivity].
    + rewrite lookup_insert_ne in Hlook by congruence. exact (Hinv name subs Hlook).
Qed.

Lemma parse_lines_taxonomy_from (lines : list string) (todo : list string) :
  forall st st',
    (forall line, line ∈ todo -> line ∈ lines) ->
    parse_lines st todo = Normal st' ->
    taxonomy_from lines (fst st) -> taxonomy_from lines (fst st').
Proof.
  induction todo as [|line todo IH]; intros st st' Hsub Hrun Hinv; cbn in Hrun.
  - injection Hrun as <-. exact Hinv.
  - destruct (parse_line st line) as [st1|e] eqn:Hstep; [|discriminate].
    apply (IH st1 st'); [|exact Hrun|].
    + intros l Hl. apply Hsub. right. exact Hl.
    + apply (parse_line_taxonomy_from lines st st1 line); [|exact Hstep|exact Hinv].
      apply Hsub. left.
Qed.

(** X8.  [parseCategoryData] invents nothing: every category of the taxonomy
    is the trimmed name captured from a category line of the text, and every
    subcategory listed under it is the text of a bullet line of the text. *)
Theorem parseCategoryData_from_lines (data : string)
    (categories : gmap string (list string)) :
  parseCategoryData data = Normal categories ->
  taxonomy_from (split_lines data) categories.
Proof.
  unfold parseCategoryData. intros Hrun.
  destruct (parse_lines (∅, None) (split_lines data)) as [[cats cur]|e] eqn:Hparse;
    [|discriminate].
  injection Hrun as <-.
  apply (parse_lines_taxonomy_from (split_lines data) (split_lines data)
           (∅, None) (cats, cur)); [auto|exact Hparse|].
  intros name subs Hlook. cbn in Hlook. rewrite lookup_empty in Hlook. discriminate.
Qed.

Lemma parseCategoryData_from_lines_witness :
  taxonomy_from (split_lines orphan_bullet_data) {[ "Food" := ["Dining out"] ]}.
Proof.
  apply (parseCategoryData_from_lines orphan_bullet_data {[ "Food" := ["Dining out"] ]}).
  vm_compute. reflexivity.
Defined.

Lemma parse_line_names_trimmed
    (st st' : gmap string (list string) * option string) (line : string) :
  parse_line st line = Normal st' ->
  names_trimmed (fst st) -> names_trimmed (fst st').
Proof.
  intros Hstep Hinv. destruct st as [categories cur]. unfold parse_line in Hstep.
  destruct (is_empty (trim line) || includes "Expense Categories:" line);
    [injection Hstep as <-; exact Hinv|].
  destruct (categoryMatch line) as [m|] eqn:Hm.
  - injection Hstep as <-. cbn [fst] in *. intros name subs Hlook.
    destruct (decide (name = trim m)) as [->|Hne].
    + rewrite lookup_insert_eq in Hlook. injection Hlook as <-. split.
      * apply trim_idem.
      * intros sub Hsub. apply elem_of_nil in Hsub. contradiction.
    + rewrite lookup_insert_ne in Hlook by congruence. exact (Hinv name subs Hlook).
  - destruct cur as [cur|]; [|injection Hstep as <-; exact Hinv].
    destruct (negb (is_empty cur) && startsWith "-" (trim line));
      [|injection Hstep as <-; exact Hinv].
    destruct (categories !! cur) as [old|] eqn:Hold; [|discriminate].
    injection Hstep as <-. cbn [fst] in *. intros name subs Hlook.
    destruct (decide (name = cur)) as [->|Hne].
    + rewrite lookup_insert_eq in Hlook. injection Hlook as <-.
      destruct (Hinv cur old Hold) as [Hname Hsubs]. split; [exact Hname|].
      intros sub Hsub. apply elem_of_app in Hsub as [Hsub|Hsub]; [exact (Hsubs sub Hsub)|].
      apply list_elem_of_singleton in Hsub as ->. apply trim_idem.
    + rewrite lookup_insert_ne in Hlook by congruence. exact (Hinv name subs Hlook).
Qed.

Lemma parse_lines_names_trimmed (todo : list string) :
  forall st st',
    parse_lines st todo = Normal st' ->
    names_trimmed (fst st) -> names_trimmed (fst st').
Proof.
  induction todo as [|line todo IH]; intros st st' Hrun Hinv; cbn in Hrun.
  - injection Hrun as <-. exact Hinv.
  - destruct (parse_line st line) as [st1|e] eqn:Hstep; [|discriminate].
    apply (IH st1 st' Hrun). exact (parse_line_names_trimmed st st1 line Hstep Hinv).
Qed.

(** X9.  No category name and no subcategory name of a parsed taxonomy has
    white space at its start or at its end: trimming it changes nothing. *)
Theorem parseCategoryData_names_trimmed (data : string)
    (categories : gmap string (list string)) :
  parseCategoryData data = Normal categories ->
  names_trimmed categories.
Proof.
  unfold parseCategoryData. intros Hrun.
  destruct (parse_lines (∅, None) (split_lines data)) as [[cats cur]|e] eqn:Hparse;
    [|discriminate].
  injection Hrun as <-.
  apply (parse_lines_names_trimmed (split_lines data) (∅, None) (cats, cur) Hparse).
  intros name subs Hlook. cbn in Hlook. rewrite lookup_empty in Hlook. discriminate.
Qed.

Lemma parseCategoryData_names_trimmed_witness :
  names_trimmed {[ "Food" := ["Dining out"] ]}.
Proof.
  apply (parseCategoryData_names_trimmed orphan_bullet_data). vm_compute. reflexivity.
Defined.

(** ** The Expense schema: an unknown category *)

Lemma has_error_at_single (p q : string) (k : ValidatorKind) (r : string) :
  has_error_at p [mkValidatorError q k r] = String.eqb q p.
Proof. unfold has_error_at. cbn. apply orb_false_r. Qed.

(** X10.  When the category is a non-empty string that is no key of the
    taxonomy, validation reports the [category] path if the taxonomy has at
    least one category, and not if it has none (the schema then has no
    [enum] validator).  In both cases it reports the [subCategory] path
    exactly when the candidate lists a subcategory: under an unknown
    category no subcategory is valid. *)
Theorem validate_unknown_category (categoryData : gmap string (list string))
    (doc : Expense) (c : string) :
  category doc = Some c ->
  is_empty c = false ->
  categoryData !! c = None ->
  (categoryData <> ∅ -> has_error_at "category" (validate categoryData doc) = true) /\
  (categoryData = ∅ -> has_error_at "category" (validate categoryData doc) = false) /\
  has_error_at "subCategory" (validate categoryData doc)
    = negb (Nat.eqb (length (subCategory doc)) 0).
Proof.
  intros Hcat Hc Hnone. split; [|split].
  - intros Hne. apply has_error_at_category; [exact Hne|]. intros (c' & Hcat' & Hin).
    rewrite Hcat in Hcat'. injection Hcat' as <-.
    unfold validCategories in Hin. apply elem_of_dom in Hin as [subs Hsubs]. congruence.
  - intros ->. unfold validate, has_error_at. rewrite !existsb_app.
    unfold validate_amount, validate_category, validate_response, validate_subCategory.
    rewrite Hcat, Hc.
    change (enum_installed (∅ : gmap string (list string))) with false. cbn [negb orb].
    destruct (checkRequired (amount doc)), (checkRequired (response doc)),
      (subCategory_validator ∅ doc (subCategory doc)); reflexivity.
  - unfold validate, has_error_at. rewrite !existsb_app.
    unfold validate_amount, validate_category, validate_response, validate_subCategory,
      subCategory_validator.
    rewrite Hcat, Hc. change (property_key (Some c)) with c. rewrite Hnone.
    change (default [] (@None (list string))) with (@nil string).
    destruct (checkRequired (amount doc)), (checkRequired (response doc)),
      (negb (enum_installed categoryData) ||
       bool_decide (c ∈ validCategories categoryData))%bool,
      (subCategory doc) as [|s subs]; reflexivity.
Qed.

Lemma validate_unknown_category_witness :
  (readme_categories <> ∅ ->
   has_error_at "category"
     (validate readme_categories
        (mkExpense "65f0c0ffee" (Some "500") (Some "Travel") ["Fuel"] (Some "Spent 500") 0))
     = true) /\
  (readme_categories = ∅ ->
   has_error_at "category"
     (validate readme_categories
        (mkExpense "65f0c0ffee" (Some "500") (Some "Travel") ["Fuel"] (Some "Spent 500") 0))
     = false) /\
  has_error_at "subCategory"
    (validate readme_categories
       (mkExpense "65f0c0ffee" (Some "500") (Some "Travel") ["Fuel"] (Some "Spent 500") 0))
    = negb (Nat.eqb (length (subCategory
         (mkExpense "65f0c0ffee" (Some "500") (Some "Travel") ["Fuel"] (Some "Spent 500") 0)))
         0).
Proof.
  apply (validate_unknown_category readme_categories
           (mkExpense "65f0c0ffee" (Some "500") (Some "Travel") ["Fuel"] (Some "Spent 500") 0)
           "Travel").
  - reflexivity.
  - reflexivity.
  - vm_compute. reflexivity.
Defined.

(** With a name inherited from [Object.prototype] as category, the validator
    throws, and the error carries the message of the TypeError. *)
Example validate_inherited_category :
  validate readme_categories
    (mkExpense "65f0c0ffee" (Some "500") (Some "constructor") ["Fuel"] (Some "Spent 500") 0)
  = [mkValidatorError "category" KindEnum
       "`constructor` is not a valid enum value for path `category`.";
     mkValidatorError "subCategory" KindUserDefined
       "validSubcategories.includes is not a function"].
Proof. vm_compute. reflexivity. Qed.

(** ** The vector store service: writes, reads and what stays attached *)

Section VectorStoreRuns.
Context `{Collaborators}.

Lemma addExpense_unfold (expense : Expense) (cat : string) (w : World) :
  category expense = Some cat ->
  addExpense expense w =
  match init_if_needed w with
  | (Throw error, w1) => (Throw error, w1)
  | (Normal _, w1) =>
      match vectorStore w1 with
      | None =>
          (Throw (mkError "Cannot read properties of null (reading 'addDocuments')"), w1)
      | Some store =>
          let doc := expense_document expense cat in
          let tr := trace w1 ++ [EvAddDocuments [doc]] in
          match HNSWLib_addDocuments store [doc] (ext w1) with
          | (Throw error, e1) =>
              (Throw error, mkWorld e1 tr (collection w1) (Some store))
          | (Normal store', e1) =>
              match HNSWLib_save store' e1 with
              | (Throw error, e2) =>
                  (Throw error, mkWorld e2 (tr ++ [EvSave]) (collection w1) (Some store'))
              | (Normal _, e2) =>
                  (Normal true, mkWorld e2 (tr ++ [EvSave]) (collection w1) (Some store'))
              end
          end
      end
  end.
Proof.
  intros Hcat. unfold addExpense, expense_document. cbv zeta. rewrite Hcat.
  unfold bind at 1. destruct (init_if_needed w) as [[[]|error] w1]; [|reflexivity].
  unfold bind, get_vectorStore, throw, emit, external, set_vectorStore, set_ext, ret.
  destruct (vectorStore w1) as [store|] eqn:Hstore; [|reflexivity].
  cbn [ext trace collection vectorStore].
  match goal with
  | |- context [HNSWLib_addDocuments store ?docs (ext w1)] =>
      destruct (HNSWLib_addDocuments store docs (ext w1)) as [[store'|error] e1]
  end; cbn [ext trace collection vectorStore]; [|rewrite ?Hstore; reflexivity].
  destruct (HNSWLib_save store' e1) as [[[]|error] e2];
    cbn [ext trace collection vectorStore]; rewrite <- ?app_assoc; reflexivity.
Qed.

Lemma prefix_append (a b c : string) :
  String.prefix (a +:+ b) (a +:+ c) = String.prefix b c.
Proof.
  induction a as [|x a IH]; [reflexivity|].
  change (String.prefix (String x (a +:+ b)) (String x (a +:+ c)) = String.prefix b c).
  cbn [String.prefix]. destruct (ascii_dec x x); [exact IH|contradiction].
Qed.

End VectorStoreRuns.

(** X11.  With an index attached, [addExpense] hands the library the document
    of the expense and then saves.  A failure of either step is thrown, never
    swallowed: when the add fails nothing is saved and the attached index is
    the old one; when the save fails the attached index already holds the new
    document.  It returns [true] exactly when both steps succeed. *)
Theorem addExpense_surfaces_write_errors `{Collaborators}
    (expense : Expense) (cat : string) (w w1 : World) (store : Handle) :
  category expense = Some cat ->
  init_if_needed w = (Normal tt, w1) ->
  vectorStore w1 = Some store ->
  (forall error e1,
      HNSWLib_addDocuments store [expense_document expense cat] (ext w1)
        = (Throw error, e1) ->
      addExpense expense w =
        (Throw error,
         mkWorld e1 (trace w1 ++ [EvAddDocuments [expense_document expense cat]])
           (collection w1) (Some store))) /\
  (forall store' e1 error e2,
      HNSWLib_addDocuments store [expense_document expense cat] (ext w1)
        = (Normal store', e1) ->
      HNSWLib_save store' e1 = (Throw error, e2) ->
      addExpense expense w =
        (Throw error,
         mkWorld e2 (trace w1 ++ [EvAddDocuments [expense_document expense cat]; EvSave])
           (collection w1) (Some store'))) /\
  (fst (addExpense expense w) = Normal true <->
   exists store' e1 e2,
     HNSWLib_addDocuments store [expense_document expense cat] (ext w1)
       = (Normal store', e1) /\
     HNSWLib_save store' e1 = (Normal tt, e2)).
Proof.
  intros Hcat Hinit Hstore.
  rewrite (addExpense_unfold expense cat w Hcat), Hinit, Hstore. cbv zeta.
  split; [|split].
  - intros error e1 Hadd. rewrite Hadd. reflexivity.
  - intros store' e1 error e2 Hadd Hsave. rewrite Hadd, Hsave.
    rewrite <- app_assoc. reflexivity.
  - destruct (HNSWLib_addDocuments store [expense_document expense cat] (ext w1))
      as [[store'|error] e1].
    + destruct (HNSWLib_save store' e1) as [[[]|error] e2] eqn:Hsave; cbn [fst].
      * split; [eauto|reflexivity].
      * split; [discriminate|]. intros (s & e & e' & [= <- <-] & Hs). congruence.
    + cbn [fst]. split; [discriminate|]. intros (s & e & e' & [=] & _).
Qed.

Lemma addExpense_surfaces_write_errors_witness :
  (forall error e1,
      HNSWLib_addDocuments [dummyDoc; coffee_doc]
        [expense_document (lunch_doc ["Snacks"] (Some "tea")) "Food"] (ext indexed_world)
        = (Throw error, e1) ->
      addExpense (lunch_doc ["Snacks"] (Some "tea")) indexed_world =
        (Throw error,
         mkWorld e1
           (trace indexed_world ++
            [EvAddDocuments [expense_document (lunch_doc ["Snacks"] (Some "tea")) "Food"]])
           (collection indexed_world) (Some [dummyDoc; coffee_doc]))) /\
  (forall store' e1 error e2,
      HNSWLib_addDocuments [dummyDoc; coffee_doc]
        [expense_document (lunch_doc ["Snacks"] (Some "tea")) "Food"] (ext indexed_world)
        = (Normal store', e1) ->
      HNSWLib_save store' e1 = (Throw error, e2) ->
      addExpense (lunch_doc ["Snacks"] (Some "tea")) indexed_world =
        (Throw error,
         mkWorld e2
           (trace indexed_world ++
            [EvAddDocuments [expense_document (lunch_doc ["Snacks"] (Some "tea")) "Food"];
             EvSave])
           (collection indexed_world) (Some store'))) /\
  (fst (addExpense (lunch_doc ["Snacks"] (Some "tea")) indexed_world) = Normal true <->
   exists store' e1 e2,
     HNSWLib_addDocuments [dummyDoc; coffee_doc]
       [expense_document (lunch_doc ["Snacks"] (Some "tea")) "Food"] (ext indexed_world)
       = (Normal store', e1) /\
     HNSWLib_save store' e1 = (Normal tt, e2)).
Proof.
  apply (addExpense_surfaces_write_errors (lunch_doc ["Snacks"] (Some "tea")) "Food"
           indexed_world indexed_world [dummyDoc; coffee_doc]); reflexivity.
Defined.

(** X12.  The document that [addExpense] adds for an expense starts with the
    upper-cased category in brackets, carries the expense's [_id] as [id],
    and has no [initialization] flag, so the filter of [similaritySearch]
    never hides it. *)
Theorem addExpense_adds_tagged_document `{Collaborators}
    (expense : Expense) (cat : string) (w : World) (store : Handle) :
  category expense = Some cat ->
  vectorStore w = Some store ->
  added_documents (trace (snd (addExpense expense w)))
    = added_documents (trace w) ++ [expense_document expense cat] /\
  startsWith ("[" +:+ toUpperCase cat +:+ "]")
    (pageContent (expense_document expense cat)) = true /\
  not_initialization (expense_document expense cat) = true /\
  (exists m, metadata (expense_document expense cat) = Some m /\
             m !! "id" = Some (JsString (_id expense))).
Proof.
  intros Hcat Hstore. split; [|split; [|split]].
  - rewrite (addExpense_unfold expense cat w Hcat), init_if_needed_unfold, Hstore.
    rewrite Hstore. cbv zeta. unfold added_documents.
    destruct (HNSWLib_addDocuments store [expense_document expense cat] (ext w))
      as [[store'|error] e1].
    + destruct (HNSWLib_save store' e1) as [[[]|error] e2]; cbn [snd trace];
        rewrite !omap_app, !concat_app; cbn; rewrite ?app_nil_r; reflexivity.
    + cbn [snd trace]. rewrite omap_app, concat_app. reflexivity.
  - unfold startsWith, expense_document. cbn [pageContent].
    change ("[" +:+ toUpperCase cat +:+ "]") with (String "[" (toUpperCase cat +:+ "]")).
    match goal with
    | |- String.prefix _ ("[" +:+ toUpperCase cat +:+ ?rest) = true =>
        change ("[" +:+ toUpperCase cat +:+ rest) with (String "[" (toUpperCase cat +:+ rest))
    end.
    cbn [String.prefix]. destruct (ascii_dec "[" "["); [|contradiction].
    rewrite prefix_append. reflexivity.
  - unfold not_initialization, metadata_initialization, expense_document. cbn [metadata].
    rewrite !lookup_insert_ne by discriminate. rewrite lookup_singleton_ne by discriminate.
    reflexivity.
  - eexists. split; [reflexivity|]. apply lookup_insert_eq.
Qed.

Lemma addExpense_adds_tagged_document_witness :
  added_documents (trace (snd (addExpense (lunch_doc ["Snacks"] (Some "tea")) indexed_world)))
    = added_documents (trace indexed_world) ++
      [expense_document (lunch_doc ["Snacks"] (Some "tea")) "Food"] /\
  startsWith ("[" +:+ toUpperCase "Food" +:+ "]")
    (pageContent (expense_document (lunch_doc ["Snacks"] (Some "tea")) "Food")) = true /\
  not_initialization (expense_document (lunch_doc ["Snacks"] (Some "tea")) "Food") = true /\
  (exists m, metadata (expense_document (lunch_doc ["Snacks"] (Some "tea")) "Food") = Some m /\
             m !! "id" = Some (JsString (_id (lunch_doc ["Snacks"] (Some "tea"))))).
Proof.
  apply (addExpense_adds_tagged_document (lunch_doc ["Snacks"] (Some "tea")) "Food"
           indexed_world [dummyDoc; coffee_doc]); reflexivity.
Defined.

Example addExpense_page_content :
  pageContent (expense_document (lunch_doc ["Snacks"; "Dining out"] (Some "tea")) "Food") =
    "[FOOD] Expense of â‚¹500 for tea " +:+ new_line +:+
    "        (Category: Food, Subcategories: Snacks, Dining out) " +:+ new_line +:+
    "        on 3/1/2024".
Proof. vm_compute. reflexivity. Qed.

Lemma filter_is_sublist {A} (f : A -> bool) (l : list A) : sublist (List.filter f l) l.
Proof.
  induction l as [|x l IH]; cbn; [constructor|].
  destruct (f x); [apply sublist_skip | apply sublist_cons]; exact IH.
Qed.

Lemma filter_drops {A} (f : A -> bool) (l : list A) (x : A) :
  x ∈ l -> f x = false -> (length (List.filter f l) < length l)%nat.
Proof.
  intros Hin Hx. induction Hin as [x l | x y l Hin IH].
  - cbn. rewrite Hx. pose proof (sublist_length _ _ (filter_is_sublist f l)). lia.
  - cbn. destruct (f y); cbn; specialize (IH Hx); lia.
Qed.

(** X13.  With an index attached, [similaritySearch] never throws and reads
    only: it makes exactly one call into the index library, the search
    itself, and leaves the attached index and the collection as they were,
    whether the search succeeds or fails. *)
Theorem similaritySearch_reads_only `{Collaborators}
    (query : string) (k : option nat) (w : World) (store : Handle) :
  vectorStore w = Some store ->
  exists docs e events,
    similaritySearch query k w =
      (Normal docs,
       mkWorld e (trace w ++ EvSearch query (default 5%nat k) :: events)
         (collection w) (Some store)) /\
    Forall (fun ev => is_index_event ev = false) events.
Proof.
  intros Hstore.
  rewrite similaritySearch_unfold, init_if_needed_unfold, Hstore. rewrite Hstore.
  destruct (HNSWLib_similaritySearch store query (default 5%nat k) (ext w))
    as [[results|error] e].
  - exists (List.filter not_initialization results), e, []. split; [reflexivity|constructor].
  - exists [], e, [EvError ("Error during similarity search: " +:+ message error)].
    split; [reflexivity|]. repeat constructor.
Qed.

Lemma similaritySearch_reads_only_witness :
  exists docs e events,
    similaritySearch "food expenses" None offline_world =
      (Normal docs,
       mkWorld e (trace offline_world ++ EvSearch "food expenses" (default 5%nat None) :: events)
         (collection offline_world) (Some [dummyDoc; coffee_doc])) /\
    Forall (fun ev => is_index_event ev = false) events.
Proof.
  apply (similaritySearch_reads_only "food expenses" None offline_world
           [dummyDoc; coffee_doc]).
  reflexivity.
Defined.

(** X14.  When the library's search succeeds, [similaritySearch] returns its
    results in the library's order with the flagged documents left out.  The
    filter runs after the library has picked its [k] nearest documents, so
    when the initialization document is among them the caller gets fewer
    documents than the library returned. *)
Theorem similaritySearch_filters_after_search `{Collaborators}
    (query : string) (k : option nat) (w : World) (store : Handle)
    (results : list Document) (e : Env) :
  vectorStore w = Some store ->
  HNSWLib_similaritySearch store query (default 5%nat k) (ext w) = (Normal results, e) ->
  fst (similaritySearch query k w) = Normal (List.filter not_initialization results) /\
  sublist (List.filter not_initialization results) results /\
  (dummyDoc ∈ results ->
   (length (List.filter not_initialization results) < length results)%nat).
Proof.
  intros Hstore Hsearch. split; [|split].
  - rewrite similaritySearch_unfold, init_if_needed_unfold, Hstore. rewrite Hstore, Hsearch.
    reflexivity.
  - apply filter_is_sublist.
  - intros Hin. apply (filter_drops not_initialization results dummyDoc Hin).
    vm_compute. reflexivity.
Qed.

Lemma similaritySearch_filters_after_search_witness :
  fst (similaritySearch "food expenses" (Some 1%nat) indexed_world)
    = Normal (List.filter not_initialization [dummyDoc]) /\
  sublist (List.filter not_initialization [dummyDoc]) [dummyDoc] /\
  (dummyDoc ∈ [dummyDoc] ->
   (length (List.filter not_initialization [dummyDoc]) < length [dummyDoc])%nat).
Proof.
  apply (similaritySearch_filters_after_search "food expenses" (Some 1%nat) indexed_world
           [dummyDoc; coffee_doc] [dummyDoc] (ext indexed_world)); reflexivity.
Defined.

(** X15.  Whenever [similaritySearch] returns, an index is attached
    afterwards: the lazy initialisation is not repeated by a later call. *)
Theorem similaritySearch_attaches `{Collaborators}
    (query : string) (k : option nat) (w w' : World) (docs : list Document) :
  similaritySearch query k w = (Normal docs, w') ->
  is_Some (vectorStore w') /\ init_if_needed w' = (Normal tt, w').
Proof.
  intros Hrun.
  assert (Hsome : is_Some (vectorStore w')).
  { rewrite similaritySearch_unfold in Hrun.
    destruct (init_if_needed w) as [[[]|error] w1] eqn:Hinit; [|discriminate].
    assert (Hw1 : is_Some (vectorStore w1)).
    { rewrite init_if_needed_unfold in Hinit.
      destruct (vectorStore w) as [store|] eqn:Hstore.
      - injection Hinit as <-. rewrite Hstore. eauto.
      - exact (init_attaches w w1 Hinit). }
    destruct Hw1 as [store Hw1]. rewrite Hw1 in Hrun.
    destruct (HNSWLib_similaritySearch store query (default 5%nat k) (ext w1))
      as [[results|error] e]; injection Hrun as _ <-; cbn; eauto. }
  split; [exact Hsome|].
  destruct Hsome as [store Hstore]. rewrite init_if_needed_unfold, Hstore. reflexivity.
Qed.

Lemma similaritySearch_attaches_witness :
  is_Some (vectorStore (snd (similaritySearch "food expenses" None quiet_world))) /\
  init_if_needed (snd (similaritySearch "food expenses" None quiet_world))
    = (Normal tt, snd (similaritySearch "food expenses" None quiet_world)).
Proof.
  apply (similaritySearch_attaches "food expenses" None quiet_world
           (snd (similaritySearch "food expenses" None quiet_world)) []).
  vm_compute. reflexivity.
Defined.

(** X16.  When no marker file exists and the fresh index is built but cannot
    be saved, [init] throws the save error and yet leaves the unsaved index
    attached: later calls find an index and do not initialise again. *)
Theorem init_failed_save_stays_attached `{Collaborators}
    (w : World) (store : Handle) (e1 e2 : Env) (error : Error) :
  existsSync_index (ext w) = false ->
  HNSWLib_fromDocuments [dummyDoc] (ext w) = (Normal store, e1) ->
  HNSWLib_save store e1 = (Throw error, e2) ->
  init w =
    (Throw error,
     mkWorld e2
       (trace w ++
        [EvFromDocuments [dummyDoc]; EvSave;
         EvError ("Error initializing vector store: " +:+ message error)])
       (collection w) (Some store)) /\
  init_if_needed (snd (init w)) = (Normal tt, snd (init w)).
Proof.
  intros Hmarker Hcreate Hsave.
  assert (Hinit : init w =
    (Throw error,
     mkWorld e2
       (trace w ++
        [EvFromDocuments [dummyDoc]; EvSave;
         EvError ("Error initializing vector store: " +:+ message error)])
       (collection w) (Some store))).
  { rewrite init_unfold, Hmarker, Hcreate, Hsave. reflexivity. }
  split; [exact Hinit|]. rewrite Hinit. cbn [snd].
  rewrite init_if_needed_unfold. reflexivity.
Qed.

Lemma init_failed_save_stays_attached_witness :
  @init SimReadOnly read_only_world =
    (Throw (mkError "EACCES: permission denied"),
     @mkWorld SimReadOnly (mkSimEnv [] 0 None false)
       (@trace SimReadOnly read_only_world ++
        [EvFromDocuments [dummyDoc]; EvSave;
         EvError ("Error initializing vector store: " +:+
                  message (mkError "EACCES: permission denied"))])
       (@collection SimReadOnly read_only_world) (Some [dummyDoc])) /\
  @init_if_needed SimReadOnly (snd (@init SimReadOnly read_only_world))
    = (Normal tt, snd (@init SimReadOnly read_only_world)).
Proof.
  apply (@init_failed_save_stays_attached SimReadOnly read_only_world [dummyDoc]
           (mkSimEnv [] 0 None false) (mkSimEnv [] 0 None false)
           (mkError "EACCES: permission denied")); reflexivity.
Defined.

(** ** The pipeline: what is persisted, indexed and reported *)

Section PipelineFacts.
Context `{Collaborators}.


Lemma keeps_collection_try_catch {A} (body : Async A) (handler : Error -> Async A) :
  keeps_collection body -> (forall e, keeps_collection (handler e)) ->
  keeps_collection (try_catch body handler).
Proof.
  intros Hb Hh w. unfold try_catch. specialize (Hb w).
  destruct (body w) as [[a|e] w1]; cbn [snd] in *; [exact Hb|].
  rewrite (Hh e w1). exact Hb.
Qed.



Lemma keeps_collection_throw {A} (e : Error) : keeps_collection (@throw _ A e).
Proof. intros w. reflexivity. Qed.


Lemma keeps_collection_external {A} (f : Env -> Completion A * Env) :
  keeps_collection (external f).
Proof. intros w. unfold external. destruct (f (ext w)). reflexivity. Qed.

Lemma keeps_collection_init : keeps_collection init.
Proof.
  intros w. rewrite init_unfold. destruct (existsSync_index (ext w)).
  - destruct (HNSWLib_load (ext w)) as [[store|error] e]; reflexivity.
  - destruct (HNSWLib_fromDocuments [dummyDoc] (ext w)) as [[store|error] e];
      [|reflexivity].
    destruct (HNSWLib_save store e) as [[[]|error] e']; reflexivity.
Qed.

Lemma keeps_collection_init_if_needed : keeps_collection init_if_needed.
Proof.
  intros w. rewrite init_if_needed_unfold.
  destruct (vectorStore w); [reflexivity|apply keeps_collection_init].
Qed.


Lemma keeps_collection_addExpense (expense : Expense) :
  keeps_collection (addExpense expense).
Proof.
  intros w. destruct (category expense) as [cat|] eqn:Hcat.
  - rewrite (addExpense_unfold expense cat w Hcat).
    pose proof (keeps_collection_init_if_needed w) as Hinit.
    destruct (init_if_needed w) as [[[]|error] w1]; cbn [snd] in *; [|exact Hinit].
    destruct (vectorStore w1) as [store|]; [|exact Hinit]. cbv zeta.
    destruct (HNSWLib_addDocuments store [expense_document expense cat] (ext w1))
      as [[store'|error] e1]; [|exact Hinit].
    destruct (HNSWLib_save store' e1) as [[[]|error] e2]; exact Hinit.
  - unfold addExpense. rewrite Hcat. reflexivity.
Qed.










End PipelineFacts.


Section PipelineRuns.
Context `{Collaborators}.

Lemma index_events_retry_events (attempt j : nat) :
  index_events (retry_events attempt j) = [].
Proof.
  revert attempt; induction j as [|j IH]; intros attempt; [reflexivity|].
  cbn. apply IH.
Qed.

Lemma index_events_app (l1 l2 : list Event) :
  index_events (l1 ++ l2) = index_events l1 ++ index_events l2.
Proof. apply List.filter_app. Qed.

(** What a traced chain call leaves untouched. *)
Lemma createTracedChain_call_frame (chain : Chain) (params : list (string * string))
    (w w1 : World) (c : Completion string) :
  createTracedChain_call chain params w = (c, w1) ->
  collection w1 = collection w /\ vectorStore w1 = vectorStore w /\
  index_events (trace w1) = index_events (trace w).
Proof.
  destruct (createTracedChain_call_run chain params w) as (k & _ & ->).
  intros [= _ <-]. cbn [collection vectorStore trace].
  rewrite index_events_app, index_events_retry_events, app_nil_r. auto.
Qed.

(** The add case up to the validation of the new document. *)
Lemma add_expense_case_unfold (categoryData : gmap string (list string))
    (input analysis : string) (w w2 : World) (data : ExpenseData) (id : string) (e3 : Env) :
  createTracedChain_call expenseChain [("text", input)]
    (logged "💭 Understanding your expense..." w) = (Normal analysis, w2) ->
  JSON_parse analysis = Normal data ->
  new_ObjectId (ext w2) = (id, e3) ->
  add_expense_case categoryData input w =
    bind (save categoryData (candidate_expense data id (Date_now e3)))
      (fun _ =>
         bind (addExpense (candidate_expense data id (Date_now e3)))
           (fun _ =>
              bind (log "✅ Expense saved:")
                (fun _ =>
                   bind (log ("   Amount: " +:+ formatCurrency (data_amount data)))
                     (fun _ =>
                        bind (log ("   Category: " +:+ interpolate (data_category data)))
                          (fun _ =>
                             bind
                               (if (0 <? length (default [] (data_sub_category data)))%nat
                                then log ("   Subcategories: " +:+
                                          join ", " (default [] (data_sub_category data)))
                                else ret tt)
                               (fun _ =>
                                  log ("   Description: " +:+
                                       interpolate (data_response data))))))))
      (set_ext e3 w2).
Proof.
  intros Hcall Hparse Hid. unfold add_expense_case.
  unfold bind at 1. unfold log at 1, emit at 1. fold (logged "💭 Understanding your expense..." w).
  unfold bind at 1. rewrite Hcall.
  unfold bind at 1. unfold lift at 1. rewrite Hparse.
  unfold bind at 1. unfold new_Expense, bind at 1, external. rewrite Hid.
  reflexivity.
Qed.

End PipelineRuns.

(** X18.  When the model's answer is [add] and the extracted expense does not
    pass validation, [processUserInput] logs the validation error and stops
    there: the collection is as before, the attached index is as before, and
    no call into the index library is made, so no document is indexed. *)
Theorem processUserInput_invalid_expense_not_indexed `{Collaborators}
    (categoryData : gmap string (list string)) (input text analysis : string)
    (w w1 w2 : World) (data : ExpenseData) (id : string) (e3 : Env) :
  createTracedChain_call intentChain [("text", input)] w = (Normal text, w1) ->
  trim (toLowerCase text) = "add" ->
  createTracedChain_call expenseChain [("text", input)]
    (logged "💭 Understanding your expense..." w1) = (Normal analysis, w2) ->
  JSON_parse analysis = Normal data ->
  new_ObjectId (ext w2) = (id, e3) ->
  validate categoryData (candidate_expense data id (Date_now e3)) <> [] ->
  processUserInput categoryData input w =
    (Normal tt,
     mkWorld e3
       (trace w2 ++
        [EvError ("❌ Error: " +:+
                  message (ValidationError
                             (validate categoryData
                                (candidate_expense data id (Date_now e3)))))])
       (collection w) (vectorStore w)) /\
  index_events (trace (snd (processUserInput categoryData input w)))
    = index_events (trace w).
Proof.
  intros Hintent Hadd Hextract Hparse Hid Hinvalid.
  destruct (createTracedChain_call_frame _ _ _ _ _ Hintent) as (Hc1 & Hv1 & Hi1).
  destruct (createTracedChain_call_frame _ _ _ _ _ Hextract) as (Hc2 & Hv2 & Hi2).
  cbn [logged collection vectorStore trace] in Hc2, Hv2, Hi2.
  rewrite index_events_app in Hi2. cbn in Hi2. rewrite app_nil_r in Hi2.
  assert (Hrun : processUserInput categoryData input w =
    (Normal tt,
     mkWorld e3
       (trace w2 ++
        [EvError ("❌ Error: " +:+
                  message (ValidationError
                             (validate categoryData
                                (candidate_expense data id (Date_now e3)))))])
       (collection w) (vectorStore w))).
  { unfold processUserInput, try_catch. unfold bind at 1. rewrite Hintent.
    cbv beta iota zeta. rewrite Hadd, String.eqb_refl.
    rewrite (add_expense_case_unfold categoryData input analysis w1 w2 data id e3
               Hextract Hparse Hid).
    unfold bind at 1. rewrite (save_invalid _ _ _ Hinvalid).
    unfold emit, set_ext. cbn [ext trace collection vectorStore].
    rewrite Hc2, Hc1, Hv2, Hv1. reflexivity. }
  split; [exact Hrun|]. rewrite Hrun. cbn [snd trace].
  rewrite index_events_app. cbn. rewrite app_nil_r. congruence.
Qed.

Lemma processUserInput_invalid_expense_not_indexed_witness :
  processUserInput bills_only "spent 500 on lunch" lunch_world =
    (Normal tt,
     mkWorld (mkSimEnv [] 0 (Some [dummyDoc]) false)
       ([EvAttempt 1; EvLog "💭 Understanding your expense..."; EvAttempt 1] ++
        [EvError ("❌ Error: " +:+
                  message (ValidationError
                             (validate bills_only
                                (candidate_expense
                                   (mkExpenseData (Some "500") (Some "Food")
                                      (Some ["Dining out"]) (Some "Spent 500 on lunch"))
                                   "65f0c0ffee" (Date_now (mkSimEnv [] 0 (Some [dummyDoc]) false))))))])
       (collection lunch_world) (vectorStore lunch_world)) /\
  index_events (trace (snd (processUserInput bills_only "spent 500 on lunch" lunch_world)))
    = index_events (trace lunch_world).
Proof.
  apply (@processUserInput_invalid_expense_not_indexed Sim bills_only "spent 500 on lunch"
           "add" "lunch" lunch_world
           (@mkWorld Sim (mkSimEnv [Normal "lunch"] 0 (Some [dummyDoc]) false)
              [EvAttempt 1] [] (Some [dummyDoc]))
           (@mkWorld Sim (mkSimEnv [] 0 (Some [dummyDoc]) false)
              [EvAttempt 1; EvLog "💭 Understanding your expense..."; EvAttempt 1] []
              (Some [dummyDoc]))
           (mkExpenseData (Some "500") (Some "Food") (Some ["Dining out"])
              (Some "Spent 500 on lunch"))
           "65f0c0ffee" (mkSimEnv [] 0 (Some [dummyDoc]) false)).
  - vm_compute. reflexivity.
  - vm_compute. reflexivity.
  - vm_compute. reflexivity.
  - reflexivity.
  - reflexivity.
  - vm_compute. discriminate.
Defined.

(** X19.  The store write and the index write are not rolled back together:
    when the expense has been validated and inserted and [addExpense] then
    throws, [processUserInput] logs that error and the record stays in the
    collection. *)
Theorem processUserInput_keeps_record_when_indexing_fails `{Collaborators}
    (categoryData : gmap string (list string)) (input text analysis : string)
    (w w1 w2 w5 : World) (data : ExpenseData) (id : string) (e3 e4 : Env)
    (error : Error) :
  createTracedChain_call intentChain [("text", input)] w = (Normal text, w1) ->
  trim (toLowerCase text) = "add" ->
  createTracedChain_call expenseChain [("text", input)]
    (logged "💭 Understanding your expense..." w1) = (Normal analysis, w2) ->
  JSON_parse analysis = Normal data ->
  new_ObjectId (ext w2) = (id, e3) ->
  validate categoryData (candidate_expense data id (Date_now e3)) = [] ->
  insertOne (candidate_expense data id (Date_now e3)) e3 = (Normal tt, e4) ->
  addExpense (candidate_expense data id (Date_now e3))
    (mkWorld e4 (trace w2)
       (collection w2 ++ [candidate_expense data id (Date_now e3)]) (vectorStore w2))
    = (Throw error, w5) ->
  processUserInput categoryData input w =
    (Normal tt,
     mkWorld (ext w5) (trace w5 ++ [EvError ("❌ Error: " +:+ message error)])
       (collection w ++ [candidate_expense data id (Date_now e3)]) (vectorStore w5)).
Proof.
  intros Hintent Hadd Hextract Hparse Hid Hvalid Hinsert Hindex.
  destruct (createTracedChain_call_frame _ _ _ _ _ Hintent) as (Hc1 & _ & _).
  destruct (createTracedChain_call_frame _ _ _ _ _ Hextract) as (Hc2 & _ & _).
  cbn [logged collection] in Hc2.
  pose proof (keeps_collection_addExpense (candidate_expense data id (Date_now e3))
                (mkWorld e4 (trace w2)
                   (collection w2 ++ [candidate_expense data id (Date_now e3)])
                   (vectorStore w2))) as Hkeep.
  rewrite Hindex in Hkeep. cbn [snd collection] in Hkeep.
  unfold processUserInput, try_catch. unfold bind at 1. rewrite Hintent.
  cbv beta iota zeta. rewrite Hadd, String.eqb_refl.
  rewrite (add_expense_case_unfold categoryData input analysis w1 w2 data id e3
             Hextract Hparse Hid).
  unfold bind at 1. rewrite (save_valid _ _ _ Hvalid).
  cbn [set_ext ext trace collection vectorStore]. rewrite Hinsert.
  unfold bind at 1. rewrite Hindex.
  unfold emit. rewrite Hkeep, Hc2, Hc1. reflexivity.
Qed.

Lemma processUserInput_keeps_record_when_indexing_fails_witness :
  processUserInput readme_categories "spent 500 on lunch" offline_lunch_world =
    (Normal tt,
     @mkWorld Sim (mkSimEnv [] 0 (Some [dummyDoc]) true)
       ([EvAttempt 1; EvLog "💭 Understanding your expense..."; EvAttempt 1;
         EvAddDocuments
           [expense_document
              (candidate_expense
                 (mkExpenseData (Some "500") (Some "Food") (Some ["Dining out"])
                    (Some "Spent 500 on lunch")) "65f0c0ffee" 0) "Food"]] ++
        [EvError ("❌ Error: " +:+ message embeddings_error)])
       (collection offline_lunch_world ++
        [candidate_expense
           (mkExpenseData (Some "500") (Some "Food") (Some ["Dining out"])
              (Some "Spent 500 on lunch")) "65f0c0ffee"
           (Date_now (mkSimEnv [] 0 (Some [dummyDoc]) true))])
       (Some [dummyDoc])).
Proof.
  apply (@processUserInput_keeps_record_when_indexing_fails Sim readme_categories
           "spent 500 on lunch" "add" "lunch" offline_lunch_world
           (@mkWorld Sim (mkSimEnv [Normal "lunch"] 0 (Some [dummyDoc]) true)
              [EvAttempt 1] [] (Some [dummyDoc]))
           (@mkWorld Sim (mkSimEnv [] 0 (Some [dummyDoc]) true)
              [EvAttempt 1; EvLog "💭 Understanding your expense..."; EvAttempt 1] []
              (Some [dummyDoc]))
           (@mkWorld Sim (mkSimEnv [] 0 (Some [dummyDoc]) true)
              [EvAttempt 1; EvLog "💭 Understanding your expense..."; EvAttempt 1;
               EvAddDocuments
                 [expense_document
                    (candidate_expense
                       (mkExpenseData (Some "500") (Some "Food") (Some ["Dining out"])
                          (Some "Spent 500 on lunch")) "65f0c0ffee" 0) "Food"]]
              [candidate_expense
                 (mkExpenseData (Some "500") (Some "Food") (Some ["Dining out"])
                    (Some "Spent 500 on lunch")) "65f0c0ffee" 0]
              (Some [dummyDoc]))
           (mkExpenseData (Some "500") (Some "Food") (Some ["Dining out"])
              (Some "Spent 500 on lunch"))
           "65f0c0ffee" (mkSimEnv [] 0 (Some [dummyDoc]) true)
           (mkSimEnv [] 0 (Some [dummyDoc]) true) embeddings_error).
  - vm_compute. reflexivity.
  - vm_compute. reflexivity.
  - vm_compute. reflexivity.
  - reflexivity.
  - reflexivity.
  - vm_compute. reflexivity.
  - reflexivity.
  - vm_compute. reflexivity.
Defined.

(** X20.  When the answer is [retrieve] and the search yields no document
    (the index holds nothing but the initialization document, or the search
    itself failed and was degraded to the empty list), [processUserInput]
    reports that no matching expense was found and does not call the
    summarising chain. *)
Theorem processUserInput_reports_no_match `{Collaborators}
    (categoryData : gmap string (list string)) (input text : string)
    (w w1 w2 : World) :
  createTracedChain_call intentChain [("text", input)] w = (Normal text, w1) ->
  trim (toLowerCase text) = "retrieve" ->
  similaritySearch input None (logged "🔍 Analyzing your expenses..." w1)
    = (Normal [], w2) ->
  processUserInput categoryData input w =
    (Normal tt, logged "❌ No matching expenses found." w2).
Proof.
  intros Hintent Hret Hsearch.
  unfold processUserInput, try_catch. unfold bind at 1. rewrite Hintent.
  cbv beta iota zeta. rewrite Hret.
  change (String.eqb "retrieve" "add") with false. rewrite String.eqb_refl.
  cbv iota. unfold retrieve_case. unfold bind at 1. unfold log at 1, emit at 1.
  fold (logged "🔍 Analyzing your expenses..." w1).
  unfold bind at 1. rewrite Hsearch. reflexivity.
Qed.

Lemma processUserInput_reports_no_match_witness :
  processUserInput readme_categories "show food expenses" offline_retrieve_world =
    (Normal tt,
     logged "❌ No matching expenses found."
       (@mkWorld Sim (mkSimEnv [] 0 (Some [dummyDoc; coffee_doc]) true)
          [EvAttempt 1; EvLog "🔍 Analyzing your expenses...";
           EvSearch "show food expenses" 5;
           EvError "Error during similarity search: embeddings request failed"]
          [] (Some [dummyDoc; coffee_doc]))).
Proof.
  apply (@processUserInput_reports_no_match Sim readme_categories "show food expenses"
           "Retrieve" offline_retrieve_world
           (@mkWorld Sim (mkSimEnv [] 0 (Some [dummyDoc; coffee_doc]) true)
              [EvAttempt 1] [] (Some [dummyDoc; coffee_doc]))).
  - vm_compute. reflexivity.
  - vm_compute. reflexivity.
  - vm_compute. reflexivity.
Defined.

(** X21.  When the intent cannot be obtained (the chain's error is not a rate
    limit, or the retries are used up), [processUserInput] logs that error
    and does nothing else: neither the add case nor the retrieve case runs. *)
Theorem processUserInput_reports_failed_classification `{Collaborators}
    (categoryData : gmap string (list string)) (input : string)
    (w w1 : World) (error : Error) :
  createTracedChain_call intentChain [("text", input)] w = (Throw error, w1) ->
  processUserInput categoryData input w =
    (Normal tt,
     mkWorld (ext w1) (trace w1 ++ [EvError ("❌ Error: " +:+ message error)])
       (collection w) (vectorStore w)) /\
  index_events (trace (snd (processUserInput categoryData input w)))
    = index_events (trace w).
Proof.
  intros Hintent.
  destruct (createTracedChain_call_frame _ _ _ _ _ Hintent) as (Hc1 & Hv1 & Hi1).
  assert (Hrun : processUserInput categoryData input w =
    (Normal tt,
     mkWorld (ext w1) (trace w1 ++ [EvError ("❌ Error: " +:+ message error)])
       (collection w) (vectorStore w))).
  { unfold processUserInput, try_catch. unfold bind at 1. rewrite Hintent.
    unfold emit. rewrite Hc1, Hv1. reflexivity. }
  split; [exact Hrun|]. rewrite Hrun. cbn [snd trace].
  rewrite index_events_app. cbn. rewrite app_nil_r. exact Hi1.
Qed.

Lemma processUserInput_reports_failed_classification_witness :
  processUserInput readme_categories "spent 500" refused_world =
    (Normal tt,
     mkWorld (ext (@mkWorld Sim (mkSimEnv [] 0 None false) [EvAttempt 1] [] None))
       (trace (@mkWorld Sim (mkSimEnv [] 0 None false) [EvAttempt 1] [] None) ++
        [EvError ("❌ Error: " +:+ message (mkError "401: incorrect API key"))])
       (collection refused_world) (vectorStore refused_world)) /\
  index_events (trace (snd (processUserInput readme_categories "spent 500" refused_world)))
    = index_events (trace refused_world).
Proof.
  apply (@processUserInput_reports_failed_classification Sim readme_categories
           "spent 500" refused_world
           (@mkWorld Sim (mkSimEnv [] 0 None false) [EvAttempt 1] [] None)
           (mkError "401: incorrect API key")).
  vm_compute. reflexivity.
Defined.

(** ** The earlier main loop, the line handler and the script *)

(** X22.  The earlier main loop treats every parsed intent other than the
    exact string [add] (an unknown word, [Add] in another case, or no intent
    at all) as a retrieval.  This is the lemma
    [main_turn_defaults_to_retrieve]; here it is run on an unknown word. *)
Lemma main_turn_defaults_to_retrieve_witness :
  main_turn readme_categories "delete my lunch" puzzled_loop_world =
    try_catch
      (bind (handleRetrieveExpense "delete my lunch")
         (fun _ => log "-------------------"))
      (fun error => emit (EvError ("Error: " +:+ message error)))
      (@mkWorld Sim
         (mkSimEnv [Normal "You spent 120 on coffee."] 0 (Some [dummyDoc; coffee_doc]) false)
         (trace puzzled_loop_world ++
          [EvLog ("🤖 Detected intent: " +:+
                  interpolate (data_intent (mkIntentData (Some "delete") "80.0")) +:+
                  " (confidence: " +:+
                  data_confidence (mkIntentData (Some "delete") "80.0") +:+ "%)")])
         (collection puzzled_loop_world) (vectorStore puzzled_loop_world)).
Proof.
  apply (@main_turn_defaults_to_retrieve Sim readme_categories "delete my lunch"
           "intent:delete" (mkIntentData (Some "delete") "80.0") puzzled_loop_world
           (mkSimEnv [Normal "You spent 120 on coffee."] 0 (Some [dummyDoc; coffee_doc])
              false)).
  - reflexivity.
  - reflexivity.
  - discriminate.
Defined.






Section ScriptFacts.
Context `{Collaborators}.
Variable inspect : list Document -> string.




End ScriptFacts.


Example testVectorStore_trace :
  trace (snd (testVectorStore (fun docs => pretty (length docs) +:+ " document(s)")
                quiet_world)) =
    [EvFromDocuments [dummyDoc]; EvSave; EvLog "Created new vector store";
     EvLog "✅ Successfully initialized vector store";
     EvAddDocuments [expense_document (testExpense 0) "Food"]; EvSave;
     EvLog "✅ Successfully added test expense";
     EvSearch "food expenses" 5;
     EvLog "✅ Successfully performed similarity search";
     EvLog "Search results: 1 document(s)";
     EvError "❌ Test failed: vectorStore.deleteExpense is not a function"].
Proof. vm_compute. reflexivity. Qed.
